(** * maxdefense: the two 0/1-knapsack solvers of maxdefense.hh

    A shallow embedding of [sum_armor_vector], [dynamic_max_defense] and
    [exhaustive_max_defense], followed by the properties the specification
    states about them; and of the rest of the program, the constructor of
    [ArmorItem], [load_armor_database], [filter_armor_vector],
    [print_armor_vector], [print_2d_cache] and [main], followed by
    properties of the code the specification does not state.

    Modelling choices, all read off the source:

    - [double] is an interface, [Arith]: the operations the solvers apply to
      defense values ([+], [-=], [<], [<=], [==], [!=], the literal [0] and
      the conversion from [int]).  [Binary64] instantiates it with IEEE-754
      binary64 (the kernel's primitive floats), which is what the compiled
      program computes with; [IntArith] instantiates it with the integers, on
      which every operation is exact.  [Exact] collects the laws of
      arithmetic without rounding.  The solvers are written once, for every
      [Arith]: what fails is shown by running them on [Binary64], what holds
      of them without rounding is proved for every [Exact] arithmetic.
    - [int] is a 32-bit signed integer.  The counters that are not tied to the
      size of a container, the mask [bits] and the accumulator [total_cost],
      are checked against [INT_MAX]: signed overflow is undefined behaviour
      and ends the run with [Undefined], as does a shift by 32 or more.
      Sizes and indices of vectors ([n], [i], [j], [maxcost]) are taken to fit.
    - [std::vector::at] throws [std::out_of_range]: outcome [OutOfRange].
      [assert] is enabled (no NDEBUG): outcome [AssertionFailed].
    - A [std::shared_ptr<ArmorItem>] is modelled by the item it points to: the
      solvers never write through one.
    - [size_t] is 64 bits wide; a [size_t] stored in an [int] keeps its low
      32 bits.  A [double] out of the range of [size_t] converted to it is
      undefined behaviour, as are the read of a variable that was never
      written and the dereference of a null pointer: outcome [Undefined].
    - The text a stream extraction reads a [double] from, the text an
      insertion writes for an [int] or a [double], and the truncation of a
      [double] are the standard library's: they are parameters of the
      functions that use them ([Conversions], [show_int], [show_double]).
      A file is the text in it, [None] when it cannot be opened; what is
      written to [std::cout] is the list of the lines written.

    The file has four parts: the model and the notions the properties are
    stated with; lemmas about the model; the properties of the specification,
    one theorem each, in the order C1, C3, C9, C5, C6, C8, C7, C10, C4, C2;
    further properties of the code, X1 to X25. *)

From Stdlib Require Import ZArith QArith Lqa Lia Floats Uint63 String Ascii.
From stdpp Require Import base list.

Local Open Scope Z_scope.

(** ** Outcomes of a call *)

Inductive outcome (T : Type) : Type :=
| Returned (x : T)     (* normal return *)
| AssertionFailed      (* assert(...) failed: abort() *)
| OutOfRange           (* std::out_of_range thrown by at() *)
| Undefined            (* signed overflow, over-wide shift, operator[] out of bounds *)
| OutOfFuel.           (* the bound on the iterations of the model ran out
                          (it never does: exhaustive_never_out_of_fuel) *)

Arguments Returned {T} x.
Arguments AssertionFailed {T}.
Arguments OutOfRange {T}.
Arguments Undefined {T}.
Arguments OutOfFuel {T}.

Definition bind {T U : Type} (m : outcome T) (k : T -> outcome U) : outcome U :=
  match m with
  | Returned x => k x
  | AssertionFailed => AssertionFailed
  | OutOfRange => OutOfRange
  | Undefined => Undefined
  | OutOfFuel => OutOfFuel
  end.

Notation "'let*' x ':=' m 'in' k" := (bind m (fun x => k))
  (at level 10, x pattern, m at level 100, k at level 200).

(** ** 32-bit [int] *)

Definition INT_MAX : Z := 2 ^ 31 - 1.
Definition INT_MIN : Z := - 2 ^ 31.

Definition in_int (z : Z) : bool := (INT_MIN <=? z) && (z <=? INT_MAX).

(** [a + b] on [int]: undefined when the sum leaves the type. *)
Definition int_add (a b : Z) : outcome Z :=
  if in_int (a + b) then Returned (a + b) else Undefined.

(** [a >> k] on [int]: undefined for a shift count of 32 or more. *)
Definition int_shr (a k : Z) : outcome Z :=
  if (0 <=? k) && (k <? 32) then Returned (Z.shiftr a k) else Undefined.

(** ** Vector access *)

(** [v.at(k)] with a [size_t] index. *)
Definition at_ {T : Type} (v : list T) (k : nat) : outcome T :=
  match v !! k with
  | Some x => Returned x
  | None => OutOfRange
  end.

(** [v.at(k)] with an [int] (or integral [double]) index: the conversion to
    [size_t] sends a negative index past every size. *)
Definition at_int {T : Type} (v : list T) (k : Z) : outcome T :=
  if k <? 0 then OutOfRange else at_ v (Z.to_nat k).

(** [v[k]], unchecked. *)
Definition index {T : Type} (v : list T) (k : nat) : outcome T :=
  match v !! k with
  | Some x => Returned x
  | None => Undefined
  end.

(** ** The arithmetic of [double] *)

Class Arith : Type := {
  dbl : Type;
  d0 : dbl;                      (* 0, 0.0 *)
  dadd : dbl -> dbl -> dbl;      (* a + b *)
  dsub : dbl -> dbl -> dbl;      (* a - b *)
  dltb : dbl -> dbl -> bool;     (* a < b *)
  dleb : dbl -> dbl -> bool;     (* a <= b *)
  deqb : dbl -> dbl -> bool;     (* a == b *)
  of_int : Z -> dbl              (* int converted to double *)
}.

(** [std::max(a, b)] is [(a < b) ? b : a]. *)
Definition dmax `{Arith} (a b : dbl) : dbl := if dltb a b then b else a.

(** IEEE-754 binary64. *)
Definition Binary64 : Arith := {|
  dbl := float;
  d0 := 0%float;
  dadd := PrimFloat.add;
  dsub := PrimFloat.sub;
  dltb := PrimFloat.ltb;
  dleb := PrimFloat.leb;
  deqb := PrimFloat.eqb;
  of_int := fun z =>
    if z <? 0 then PrimFloat.opp (PrimFloat.of_uint63 (Uint63.of_Z (- z)))
    else PrimFloat.of_uint63 (Uint63.of_Z z)
|}.

(** The integers: arithmetic without rounding. *)
Definition IntArith : Arith := {|
  dbl := Z;
  d0 := 0;
  dadd := Z.add;
  dsub := Z.sub;
  dltb := Z.ltb;
  dleb := Z.leb;
  deqb := Z.eqb;
  of_int := fun z => z
|}.

(** Arithmetic without rounding: the values embed in the rationals and every
    operation is the rational one. *)
Record Exact (A : Arith) : Type := {
  val : @dbl A -> Q;
  val_d0 : (val d0 == 0)%Q;
  val_dadd : forall a b, (val (dadd a b) == val a + val b)%Q;
  val_dsub : forall a b, (val (dsub a b) == val a - val b)%Q;
  val_dltb : forall a b, dltb a b = true <-> (val a < val b)%Q;
  val_dleb : forall a b, dleb a b = true <-> (val a <= val b)%Q;
  val_deqb : forall a b, deqb a b = true <-> (val a == val b)%Q;
  val_of_int : forall z, (val (of_int z) == inject_Z z)%Q
}.

Arguments val {A} _ _.

Section Solvers.

Context {A : Arith}.

(** ** Data model *)

(** class ArmorItem: description, cost in gold, defense points. *)
Record ArmorItem : Type := {
  description : string;
  cost : Z;
  defense : dbl
}.

(** typedef std::vector<std::shared_ptr<ArmorItem>> ArmorVector *)
Local Abbreviation ArmorVector := (list ArmorItem).

(** ** sum_armor_vector *)

(** The loop of [sum_armor_vector]: [total_cost += cost], [total_defense +=
    defense] for each armor in turn. *)
Fixpoint sum_loop (armors : ArmorVector) (total_cost : Z) (total_defense : dbl)
  : outcome (Z * dbl) :=
  match armors with
  | [] => Returned (total_cost, total_defense)
  | armor :: rest =>
      let* total_cost' := int_add total_cost (cost armor) in
      sum_loop rest total_cost' (dadd total_defense (defense armor))
  end.

Definition sum_armor_vector (armors : ArmorVector) : outcome (Z * dbl) :=
  sum_loop armors 0 d0.

(** ** dynamic_max_defense *)

(** The value pushed onto row [i] at column [j]. *)
Definition cell (armors : ArmorVector) (matrix : list (list dbl)) (i : nat) (j : Z)
  : outcome dbl :=
  match i with
  | O => Returned d0
  | S i' =>
      if j =? 0 then Returned d0
      else
        let* item := at_ armors i' in
        let* prev := index matrix i' in
        if cost item <=? j then
          let back := j - cost item in
          let* with_item := at_int prev back in
          let* without := at_int prev j in
          Returned (dmax (dadd (defense item) with_item) without)
        else at_int prev j
  end.

(** for (int j = ...; j <= maxcost; j++) v1.push_back(...), with [count]
    iterations left. *)
Fixpoint fill_row (armors : ArmorVector) (matrix : list (list dbl)) (i : nat)
    (count : nat) (j : Z) (v1 : list dbl) : outcome (list dbl) :=
  match count with
  | O => Returned v1
  | S count' =>
      let* elem := cell armors matrix i j in
      fill_row armors matrix i count' (j + 1) (v1 ++ [elem])
  end.

(** for (int i = ...; i <= n; i++) matrix.push_back(v1), with [count]
    iterations left. *)
Fixpoint fill_matrix (armors : ArmorVector) (maxcost : Z)
    (count : nat) (i : nat) (matrix : list (list dbl)) : outcome (list (list dbl)) :=
  match count with
  | O => Returned matrix
  | S count' =>
      let* v1 := fill_row armors matrix i (Z.to_nat (maxcost + 1)) 0 [] in
      fill_matrix armors maxcost count' (S i) (matrix ++ [v1])
  end.

(** The table built by the first loop nest: rows 0..n, columns 0..maxcost. *)
Definition build_matrix (armors : ArmorVector) (total_cost : Z) : outcome (list (list dbl)) :=
  fill_matrix armors total_cost (S (length armors)) 0 [].

(** The variables of the reconstruction loop. *)
Record walk_state : Type := {
  ws_result : ArmorVector;
  ws_matrixValue : dbl;
  ws_maxcost : Z;
  ws_n : nat
}.

(** while (matrixValue != 0 && n != 0) { ... n--; } *)
Fixpoint walk (armors : ArmorVector) (matrix : list (list dbl))
    (n : nat) (maxcost : Z) (matrixValue : dbl) (result : ArmorVector)
  : outcome walk_state :=
  match n with
  | O => Returned {| ws_result := result; ws_matrixValue := matrixValue;
                     ws_maxcost := maxcost; ws_n := O |}
  | S n' =>
      if deqb matrixValue d0
      then Returned {| ws_result := result; ws_matrixValue := matrixValue;
                       ws_maxcost := maxcost; ws_n := n |}
      else
        let* row_n := index matrix n in
        let* here := at_int row_n maxcost in
        let* row_p := index matrix n' in
        let* above := at_int row_p maxcost in
        if negb (deqb here above) then
          let* item := at_ armors n' in
          walk armors matrix n' (maxcost - cost item)
               (dsub matrixValue (defense item)) (result ++ [item])
        else walk armors matrix n' maxcost matrixValue result
  end.

(** The state in which the reconstruction loop stops. *)
Definition dynamic_walk (armors : ArmorVector) (total_cost : Z) : outcome walk_state :=
  let n := length armors in
  let maxcost := total_cost in
  let* matrix := build_matrix armors maxcost in
  let* row_n := index matrix n in
  let* matrixValue := at_int row_n maxcost in
  walk armors matrix n maxcost matrixValue [].

Definition dynamic_max_defense (armors : ArmorVector) (total_cost : Z)
  : outcome ArmorVector :=
  let* s := dynamic_walk armors total_cost in
  Returned (ws_result s).

(** ** exhaustive_max_defense *)

(** for (int j = ...; j < n; j++) if (((bits >> j) & 1) == 1)
    candidate->push_back(armors[j]), with [count] iterations left. *)
Fixpoint build_candidate (armors : ArmorVector) (bits : Z)
    (count : nat) (j : Z) (candidate : ArmorVector) : outcome ArmorVector :=
  match count with
  | O => Returned candidate
  | S count' =>
      let* shifted := int_shr bits j in
      if Z.land shifted 1 =? 1 then
        let* item := index armors (Z.to_nat j) in
        build_candidate armors bits count' (j + 1) (candidate ++ [item])
      else build_candidate armors bits count' (j + 1) candidate
  end.

(** [best] is a non-null [unique_ptr] throughout. *)
Definition best_is_nullptr : bool := false.

(** for (int bits = ...; bits < pow(2,n); bits++) { ... }.  [pow(2,n)] and the
    converted [bits] are exact in binary64 for n < 64, so the loop test is the
    comparison of the integers. *)
Fixpoint search (armors : ArmorVector) (total_cost : dbl) (fuel : nat)
    (bits : Z) (best : ArmorVector) (best_defense : dbl) : outcome ArmorVector :=
  match fuel with
  | O => OutOfFuel
  | S fuel' =>
      let n := length armors in
      if bits <? 2 ^ Z.of_nat n then
        let* candidate := build_candidate armors bits n 0 [] in
        let* sums := sum_armor_vector candidate in
        let '(total_gold_cost, cand_defense) := sums in
        let '(best', best_defense') :=
          if dleb (of_int total_gold_cost) total_cost then
            if best_is_nullptr || dltb best_defense cand_defense
            then (candidate, cand_defense)
            else (best, best_defense)
          else (best, best_defense) in
        let* bits' := int_add bits 1 in
        search armors total_cost fuel' bits' best' best_defense'
      else Returned best
  end.

(** Iterations the loop over [bits] can make before it returns or overflows:
    one per mask below [pow(2,n)] and [INT_MAX + 1], and the final test. *)
Definition search_fuel (n : nat) : nat :=
  S (Z.to_nat (Z.min (2 ^ Z.of_nat n) (INT_MAX + 1))).

Definition exhaustive_max_defense (armors : ArmorVector) (total_cost : dbl)
  : outcome ArmorVector :=
  let n := length armors in
  if negb (Z.of_nat n <? 64) then AssertionFailed
  else search armors total_cost (search_fuel n) 0 [] d0.

End Solvers.

Arguments ArmorItem : clear implicits.
Arguments walk_state : clear implicits.

Abbreviation ArmorVector A := (list (ArmorItem A)).

(** * The rest of maxdefense.hh, and main *)

(** ** ArmorItem's constructor *)

(** [size_t] is 64 bits wide. *)
Definition SIZE_MAX : Z := 2 ^ 64 - 1.

(** A [size_t] stored in an [int]: the value modulo 2^32, taken in the range
    of [int]. *)
Definition int_of_size_t (z : Z) : Z :=
  let low := z mod 2 ^ 32 in
  if low <=? INT_MAX then low else low - 2 ^ 32.

(** new ArmorItem(description, cost_gold, defense_points): the members are
    initialised, [_cost_gold] from the [size_t] parameter, then the body
    asserts. *)
Definition new_ArmorItem {A : Arith} (descr : string) (cost_gold : Z)
    (defense_points : dbl) : outcome (ArmorItem A) :=
  let item := {| description := descr;
                 cost := int_of_size_t cost_gold;
                 defense := defense_points |} in
  if String.eqb descr EmptyString then AssertionFailed
  else if negb (0 <? cost_gold) then AssertionFailed
  else Returned item.

(** ** Reading lines and fields *)

(** std::getline(stream, str, delim): the characters up to the first [delim],
    which is taken off the stream and dropped, or up to the end of the
    stream; with the stream that is left. *)
Fixpoint getline (delim : ascii) (stream : string) : string * string :=
  match stream with
  | EmptyString => (EmptyString, EmptyString)
  | String c rest =>
      if Ascii.eqb c delim then (EmptyString, rest)
      else let '(str, rest') := getline delim rest in (String c str, rest')
  end.

(** for (std::string str; std::getline(stream, str, delim); ) v.push_back(str),
    with [count] iterations left.  A call that finds the stream at its end
    extracts nothing and fails, which ends the loop. *)
Fixpoint getline_loop (delim : ascii) (count : nat) (stream : string)
    (v : list string) : list string :=
  match count with
  | O => v
  | S count' =>
      match stream with
      | EmptyString => v
      | String _ _ =>
          let '(str, rest) := getline delim stream in
          getline_loop delim count' rest (v ++ [str])
      end
  end.

(** Every iteration takes a character off the stream: its length bounds the
    iterations. *)
Definition getlines (delim : ascii) (stream : string) : list string :=
  getline_loop delim (String.length stream) stream [].

Definition newline : ascii := "010"%char.
Definition caret : ascii := "^"%char.

(** ** load_armor_database *)

(** What the standard library does to a [double] on the way in: [ss >> output]
    on the text of a field, the value it stores in [output] or [None] when it
    stores nothing; and the conversion of a [double] argument to the [size_t]
    parameter of the constructor, undefined when the truncated value is not a
    [size_t]. *)
Record Conversions (A : Arith) : Type := {
  extract : string -> option (@dbl A);
  to_size_t : @dbl A -> outcome Z
}.

Arguments extract {A} _ _.
Arguments to_size_t {A} _ _.

(** What a call of [load_armor_database] returns: the vector, or the null
    pointer, after one of two messages on [std::cout]. *)
Inductive load_result (A : Arith) : Type :=
| Loaded (armors : ArmorVector A)
| CannotOpen                  (* "Cannot open file: <path>" *)
| InvalidFieldCount (line_number : nat) (got : nat) (line : string).
                              (* "Invalid field count at line <line_number>;
                                  Want 3 but got <got>", "Line: <line>" *)

Arguments Loaded {A} armors.
Arguments CannotOpen {A}.
Arguments InvalidFieldCount {A} line_number got line.

(** The pointer the caller receives. *)
Definition database {A : Arith} (r : load_result A) : option (ArmorVector A) :=
  match r with
  | Loaded armors => Some armors
  | _ => None
  end.

Section Loader.

Context {A : Arith} (conv : Conversions A).

(** for (std::string line; std::getline(f, line); ) { ... } over the lines
    left to read.  [parse_dbl] returns true for every field: a stringstream
    is good when it has just been made.  [cost_gold] and [defense_points]
    have no initial value: an extraction that stores nothing leaves the read
    of the variable undefined. *)
Fixpoint load_loop (lines : list string) (line_number : nat)
    (result : ArmorVector A) : outcome (load_result A) :=
  match lines with
  | [] => Returned (Loaded result)
  | line :: rest =>
      let line_number := S line_number in
      if (line_number =? 1)%nat then load_loop rest line_number result
      else
        let fields := getlines caret line in
        match fields with
        | [descr_field; cost_gold_field; defense_points_field] =>
            match extract conv cost_gold_field,
                  extract conv defense_points_field with
            | Some cost_gold, Some defense_points =>
                let* cost_gold_size := to_size_t conv cost_gold in
                let* item := new_ArmorItem descr_field cost_gold_size defense_points in
                load_loop rest line_number (result ++ [item])
            | _, _ => Undefined
            end
        | _ => Returned (InvalidFieldCount line_number (length fields) line)
        end
  end.

(** [file] is the text of the file at [path], [None] when it cannot be
    opened. *)
Definition load_armor_database (file : option string) : outcome (load_result A) :=
  match file with
  | None => Returned CannotOpen
  | Some text => load_loop (getlines newline text) 0 []
  end.

End Loader.

(** ** filter_armor_vector *)

Section Filter.

Context {A : Arith}.

(** The defense of [armor] lies between the two bounds.  [a >= b] on
    [double] is [b <= a]. *)
Definition in_range (min_defense max_defense : dbl) (armor : ArmorItem A) : bool :=
  dleb min_defense (defense armor) && dleb (defense armor) max_defense.

(** for (auto& armor : source) if (...) { filterVec->push_back(armor);
    maxSize++; } *)
Fixpoint filter_loop (source : ArmorVector A) (min_defense max_defense : dbl)
    (total_size : Z) (maxSize : Z) (filterVec : ArmorVector A)
  : outcome (ArmorVector A) :=
  match source with
  | [] => Returned filterVec
  | armor :: rest =>
      if dleb min_defense (defense armor) && dleb (defense armor) max_defense
         && (maxSize <? total_size)
      then
        let* maxSize' := int_add maxSize 1 in
        filter_loop rest min_defense max_defense total_size maxSize'
                    (filterVec ++ [armor])
      else
        filter_loop rest min_defense max_defense total_size maxSize filterVec
  end.

Definition filter_armor_vector (source : ArmorVector A)
    (min_defense max_defense : dbl) (total_size : Z) : outcome (ArmorVector A) :=
  filter_loop source min_defense max_defense total_size 0 [].

End Filter.

(** ** print_armor_vector and print_2d_cache *)

Section Printing.

(** [std::cout << x] for an [int] and for a [double]: the text the standard
    library writes. *)
Context {A : Arith} (show_int : Z -> string) (show_double : @dbl A -> string).

(** [count] spaces. *)
Fixpoint spaces (count : nat) : string :=
  match count with
  | O => EmptyString
  | S count' => String " "%char (spaces count')
  end.

(** std::setw(w) before an insertion: the text is filled with spaces on the
    left up to the width [w]. *)
Definition setw (w : nat) (text : string) : string :=
  (spaces (w - String.length text) ++ text)%string.

(** The line written for one armor. *)
Definition armor_line (armor : ArmorItem A) : string :=
  ("Ye olde " ++ description armor ++ " ==> " ++ "Cost of "
   ++ show_int (cost armor) ++ " gold" ++ "; Defense points = "
   ++ show_double (defense armor))%string.

(** The lines written to [std::cout]. *)
Definition print_armor_vector (armors : ArmorVector A) : outcome (list string) :=
  let title := "*** Armor Vector ***"%string in
  if (length armors =? 0)%nat then Returned [title; "[empty armor list]"%string]
  else
    let lines := map armor_line armors in
    let* sums := sum_armor_vector armors in
    let '(total_cost, total_defense) := sums in
    Returned (title :: lines
              ++ [("> Grand total cost: " ++ show_int total_cost ++ " gold")%string;
                  ("> Grand total defense: " ++ show_double total_defense)%string]).

(** The line written for one row. *)
Definition cache_line (row : list (@dbl A)) : string :=
  fold_left (fun line value => (line ++ setw 5 (show_double value))%string)
            row EmptyString.

(** The lines written to [std::cout].  [||] evaluates [cache[1]] only when
    the cache has at most 250 rows. *)
Definition print_2d_cache (cache : list (list (@dbl A))) : outcome (list string) :=
  let title := "*** 2D Cache ***"%string in
  if (length cache =? 0)%nat then Returned [title; "[empty]"%string]
  else
    let* too_large :=
      if (250 <? length cache)%nat then Returned true
      else let* row := index cache 1 in Returned (250 <? length row)%nat in
    if (too_large : bool) then Returned [title; "[too large]"%string]
    else Returned (title :: map cache_line cache).

End Printing.

(** ** main *)

(** What [main] computes between loading the database and stopping the timer:
    the armors of "armor.csv" of defense 1 to 500, the first 70 of them,
    solved for 500 gold.  [*armors] is undefined when the database is the
    null pointer. *)
Definition main_run {A : Arith} (conv : Conversions A) (file : option string)
  : outcome (ArmorVector A) :=
  let cost := 500 in
  let n := 70 in
  let* armors := load_armor_database conv file in
  match database armors with
  | None => Undefined
  | Some armors =>
      let* filtered_vec := filter_armor_vector armors (of_int 1) (of_int cost) n in
      dynamic_max_defense filtered_vec cost
  end.

(** * Notions the properties are stated with *)

Section Notions.

Context {A : Arith}.

Implicit Types (armors sol : ArmorVector A).

(** ** Aggregates, as functions *)

(** The sum of the costs, in the integers. *)
Definition cost_sum (armors : ArmorVector A) : Z :=
  foldr (fun a s => cost a + s) 0 armors.

(** The sum of the defenses as [sum_armor_vector] accumulates it, left to
    right from [total_defense]. *)
Definition defense_sum_from (total_defense : dbl) (armors : ArmorVector A) : dbl :=
  fold_left (fun d a => dadd d (defense a)) armors total_defense.

Definition defense_sum (armors : ArmorVector A) : dbl := defense_sum_from d0 armors.

(** Every cost is positive, as the constructor of ArmorItem asserts. *)
Definition positive_costs (armors : ArmorVector A) : Prop :=
  Forall (fun a => 0 < cost a) armors.

(** ** The table and the walk *)

(** The recurrence the table is filled by, read as a function of the row and
    the column. *)
Fixpoint T (armors : ArmorVector A) (i : nat) (j : Z) : dbl :=
  match i with
  | O => d0
  | S i' =>
      if j =? 0 then d0
      else match armors !! i' with
           | Some item =>
               if cost item <=? j
               then dmax (dadd (defense item) (T armors i' (j - cost item))) (T armors i' j)
               else T armors i' j
           | None => d0
           end
  end.

(** Row [i] of the table, columns 0..maxcost, and its first [rows] rows. *)
Definition row_of (armors : ArmorVector A) (maxcost : Z) (i : nat) : list dbl :=
  map (fun j => T armors i (Z.of_nat j)) (seq 0 (Z.to_nat (maxcost + 1))).

Definition table (armors : ArmorVector A) (maxcost : Z) (rows : nat) : list (list dbl) :=
  map (row_of armors maxcost) (seq 0 rows).



(** ** The enumeration *)

(** The armors whose bit is set in [bits], lowest bit first. *)
Fixpoint select (armors : ArmorVector A) (bits : Z) : ArmorVector A :=
  match armors with
  | [] => []
  | a :: rest =>
      if Z.odd bits then a :: select rest (Z.div2 bits) else select rest (Z.div2 bits)
  end.


Definition fits (total_cost : dbl) (c : Z) : Prop :=
  dleb (of_int c) total_cost = true.


(** What one pass of the loop over [bits] does to [best] and [best_defense]
    once [candidate] is built and summed. *)
Definition consider (total_cost : dbl) (best : ArmorVector A) (best_defense : dbl)
    (candidate : ArmorVector A) : ArmorVector A * dbl :=
  if dleb (of_int (cost_sum candidate)) total_cost then
    if best_is_nullptr || dltb best_defense (defense_sum candidate)
    then (candidate, defense_sum candidate)
    else (best, best_defense)
  else (best, best_defense).

(** [build_candidate] and [sum_armor_vector] return or run into undefined
    behaviour: they throw nothing and assert nothing. *)
Definition returned_or_undefined {T : Type} (o : outcome T) : Prop :=
  match o with
  | Returned _ | Undefined => True
  | _ => False
  end.

(** ** What the specification asks of a returned solution *)

(** The aggregate cost of [sol] passes the budget test [ok]. *)
Definition feasible (ok : Z -> Prop) sol : Prop :=
  exists c d, sum_armor_vector sol = Returned (c, d) /\ ok c.





End Notions.

Section ExactNotions.

Context {A : Arith} (E : Exact A).

Implicit Types (armors : ArmorVector A).



End ExactNotions.

(** The aggregate [sum_armor_vector] computes of what a solver returned. *)
Definition aggregate_of {A : Arith} (o : outcome (ArmorVector A)) : outcome (Z * dbl) :=
  let* sol := o in sum_armor_vector sol.

(** ** The integers are exact *)


(** ** Catalogs of the examples *)

(** An armor for the examples. *)
Definition armor {A : Arith} (c : Z) (d : dbl) : ArmorItem A :=
  {| description := "armor"; cost := c; defense := d |}.

(** Three armors whose defenses, 0.1, 0.2 and 0.3, do not add up to the same
    binary64 value in both orders: (0.1 + 0.2) + 0.3 is the value next above
    (0.3 + 0.2) + 0.1. *)
Definition tenths : ArmorVector Binary64 :=
  [@armor Binary64 1 0x1.999999999999ap-4%float;
   @armor Binary64 1 0x1.999999999999ap-3%float;
   @armor Binary64 1 0x1.3333333333333p-2%float].

(** The same at cost 2 each, and a fourth armor whose defense is the greater
    of the two sums. *)
Definition tenths_and_sum : ArmorVector Binary64 :=
  [@armor Binary64 2 0x1.999999999999ap-4%float;
   @armor Binary64 2 0x1.999999999999ap-3%float;
   @armor Binary64 2 0x1.3333333333333p-2%float;
   @armor Binary64 5 0x1.3333333333334p-1%float].


(** Scenario 1 of the specification, on the integers and in binary64. *)
Definition scenario1 : ArmorVector IntArith :=
  [@armor IntArith 2 3; @armor IntArith 3 4; @armor IntArith 4 5; @armor IntArith 5 6].

Definition scenario1_binary64 : ArmorVector Binary64 :=
  [@armor Binary64 2 3%float; @armor Binary64 3 4%float;
   @armor Binary64 4 5%float; @armor Binary64 5 6%float].

(** Scenario 2 of the specification. *)
Definition scenario2 : ArmorVector Binary64 :=
  [@armor Binary64 10 60%float; @armor Binary64 20 100%float;
   @armor Binary64 30 120%float].

(** Two armors whose costs add up to 2^31, one more than [INT_MAX]. *)
Definition costly : ArmorVector Binary64 :=
  [@armor Binary64 (2 ^ 30) 1%float; @armor Binary64 (2 ^ 30) 1%float].

(** A catalog of [n] armors of cost 1 and defense 1. *)
Definition ones (n : nat) : ArmorVector Binary64 :=
  repeat (@armor Binary64 1 1%float) n.

(** ** Conversions of the examples *)

(** The truncation of a binary64 value to [size_t]. *)
Definition float_to_size_t (x : float) : outcome Z :=
  match Prim2SF x with
  | S754_zero _ => Returned 0
  | S754_finite s m e =>
      let magnitude := if 0 <=? e then Zpos m * 2 ^ e else Zpos m / 2 ^ (- e) in
      if magnitude =? 0 then Returned 0
      else if s then Undefined
      else if magnitude <=? SIZE_MAX then Returned magnitude else Undefined
  | _ => Undefined
  end.

(** The value of a decimal digit. *)
Definition digit (c : ascii) : option Z :=
  let k := Z.of_nat (nat_of_ascii c) - 48 in
  if (0 <=? k) && (k <=? 9) then Some k else None.

(** The number the leading decimal digits of [text] denote, after [value]. *)
Fixpoint digits_from (text : string) (value : Z) : Z :=
  match text with
  | EmptyString => value
  | String c rest =>
      match digit c with
      | Some k => digits_from rest (10 * value + k)
      | None => value
      end
  end.

(** An extraction for the examples: an unsigned decimal numeral is read;
    nothing is stored for the empty text, 0 for any other text. *)
Definition extract_digits (text : string) : option Z :=
  match text with
  | EmptyString => None
  | String _ _ => Some (digits_from text 0)
  end.

Definition IntConversions : Conversions IntArith := {|
  extract := extract_digits : string -> option (@dbl IntArith);
  to_size_t := fun z : @dbl IntArith =>
    if (0 <=? z) && (z <=? SIZE_MAX) then Returned z else Undefined
|}.

Definition Binary64Conversions : Conversions Binary64 := {|
  extract := fun text =>
    match extract_digits text with
    | Some z => Some (@of_int Binary64 z)
    | None => None
    end;
  to_size_t := float_to_size_t
|}.



(** ** Values that are not numbers *)

(** What the solvers need to know of an arithmetic with a NaN: a value
    equals itself unless it is one, one equals nothing, and the difference
    and the sum of one are one. *)
Record NaNLaws (A : Arith) : Type := {
  is_NaN : @dbl A -> Prop;
  deqb_refl : forall x, deqb x x = true \/ is_NaN x;
  deqb_nan_l : forall x y, is_NaN x -> deqb x y = false;
  deqb_nan_r : forall x y, is_NaN y -> deqb x y = false;
  dsub_nan : forall x y, is_NaN x -> is_NaN (dsub x y);
  dadd_nan : forall x y, is_NaN y -> is_NaN (dadd x y);
  d0_number : ~ is_NaN d0
}.

Arguments is_NaN {A} _ _.

(** Binary64 has these laws. *)
Definition Binary64NaN : NaNLaws Binary64.
Proof.
  refine {| is_NaN := fun x : @dbl Binary64 => Prim2SF x = S754_nan |}; simpl.
  - intros x. rewrite FloatAxioms.eqb_spec. destruct (Prim2SF x) as [s|s| |s m e]; auto.
    + left. by destruct s.
    + left. unfold SFeqb, SFcompare.
      rewrite Z.compare_refl.
      change (PosDef.Pos.compare_cont Eq m m) with (Pos.compare m m).
      rewrite Pos.compare_refl. by destruct s.
  - intros x y Hx. rewrite FloatAxioms.eqb_spec, Hx. reflexivity.
  - intros x y Hy. rewrite FloatAxioms.eqb_spec, Hy. by destruct (Prim2SF x).
  - intros x y Hx. rewrite FloatAxioms.sub_spec, Hx. reflexivity.
  - intros x y Hy. rewrite FloatAxioms.add_spec, Hy. by destruct (Prim2SF x).
  - vm_compute. discriminate.
Defined.

(** The integers have them: no integer is a NaN. *)
Definition IntNaN : NaNLaws IntArith.
Proof.
  refine {| is_NaN := fun _ : @dbl IntArith => False |}; simpl; try tauto.
  intros x. left. apply Z.eqb_refl.
Defined.

(** ** Notions for the text of the database *)

(** [c] occurs in [text]. *)
Fixpoint occurs (c : ascii) (text : string) : bool :=
  match text with
  | EmptyString => false
  | String c' rest => Ascii.eqb c' c || occurs c rest
  end.

(** The fields with [delim] between them. *)
Fixpoint join (delim : ascii) (fields : list string) : string :=
  match fields with
  | [] => EmptyString
  | [field] => field
  | field :: rest => (field ++ String delim (join delim rest))%string
  end.

(** The fields of [text], by recursion on the text: a delimiter ends a field,
    the end of the text ends a field that has begun. *)
Fixpoint fields_of (delim : ascii) (text : string) : list string :=
  match text with
  | EmptyString => []
  | String c rest =>
      if Ascii.eqb c delim then EmptyString :: fields_of delim rest
      else match fields_of delim rest with
           | [] => [String c EmptyString]
           | field :: fields => String c field :: fields
           end
  end.

(** [item] is the armor the loop of [load_armor_database] makes of [line]. *)
Definition loads_as {A : Arith} (conv : Conversions A) (line : string)
    (item : ArmorItem A) : Prop :=
  exists cost_gold_field defense_points_field cost_gold cost_gold_size,
    getlines caret line = [description item; cost_gold_field; defense_points_field]
    /\ extract conv cost_gold_field = Some cost_gold
    /\ extract conv defense_points_field = Some (defense item)
    /\ to_size_t conv cost_gold = Returned cost_gold_size
    /\ description item <> EmptyString
    /\ 0 < cost_gold_size
    /\ cost item = int_of_size_t cost_gold_size.

(** ** Texts of the examples *)

(** A database of three armors. *)
Definition armor_csv : string :=
  join newline ["name^cost^defense"; "helmet^2^3"; "shield^3^4"; "boots^4^5"]%string.

(** A database whose third line lacks a field. *)
Definition broken_csv : string :=
  join newline ["name^cost^defense"; "helmet^2^3"; "shield^3"; "boots^4^5"]%string.

(** An armor whose defense is a NaN. *)
Definition nan_armor : ArmorItem Binary64 := @armor Binary64 1 PrimFloat.nan.

(** * Properties *)

Section Facts.

Context {A : Arith}.

Implicit Types (armors : ArmorVector A) (matrix : list (list dbl)).

Lemma cost_sum_app armors1 armors2 :
  cost_sum (armors1 ++ armors2) = cost_sum armors1 + cost_sum armors2.
Proof. induction armors1 as [|a l IH]; simpl; [|rewrite IH]; lia. Qed.

Lemma cost_sum_nonneg armors : positive_costs armors -> 0 <= cost_sum armors.
Proof. induction 1; simpl; lia. Qed.


Lemma positive_costs_sublist armors1 armors2 :
  sublist armors1 armors2 -> positive_costs armors2 -> positive_costs armors1.
Proof.
  induction 1 as [|a l1 l2 _ IH|a l1 l2 _ IH]; intros Hp.
  - constructor.
  - inversion Hp; subst. constructor; [done|]. by apply IH.
  - inversion Hp; subst. by apply IH.
Qed.

Lemma cost_sum_sublist armors1 armors2 :
  sublist armors1 armors2 -> positive_costs armors2 ->
  cost_sum armors1 <= cost_sum armors2.
Proof.
  induction 1 as [|a l1 l2 _ IH|a l1 l2 _ IH]; intros Hp; simpl.
  - lia.
  - inversion Hp; subst. specialize (IH ltac:(done)). lia.
  - inversion Hp; subst. specialize (IH ltac:(done)). lia.
Qed.

Lemma sum_loop_fits armors total_cost total_defense :
  positive_costs armors -> 0 <= total_cost ->
  total_cost + cost_sum armors <= INT_MAX ->
  sum_loop armors total_cost total_defense
  = Returned (total_cost + cost_sum armors, defense_sum_from total_defense armors).
Proof.
  intros Hp. revert total_cost total_defense.
  induction Hp as [|a l Ha Hl IH]; intros tc td Htc Hfit; simpl in *.
  - do 2 f_equal. lia.
  - pose proof (cost_sum_nonneg l Hl).
    unfold int_add, in_int, INT_MIN.
    replace ((- 2 ^ 31 <=? tc + cost a) && (tc + cost a <=? INT_MAX)) with true
      by (symmetry; apply andb_true_iff; split; apply Z.leb_le; lia).
    simpl. rewrite IH by lia. do 2 f_equal. lia.
Qed.

Lemma sum_armor_vector_fits armors :
  positive_costs armors -> cost_sum armors <= INT_MAX ->
  sum_armor_vector armors = Returned (cost_sum armors, defense_sum armors).
Proof.
  intros Hp Hfit. unfold sum_armor_vector.
  rewrite sum_loop_fits by (done || lia). done.
Qed.



(** ** The table of [dynamic_max_defense] *)

Lemma row_of_lookup armors maxcost i j :
  0 <= j <= maxcost ->
  row_of armors maxcost i !! Z.to_nat j = Some (T armors i j).
Proof.
  intros Hj. unfold row_of.
  rewrite list_lookup_fmap, lookup_seq_lt by lia.
  simpl. by rewrite Z2Nat.id by lia.
Qed.

Lemma row_of_length armors maxcost i :
  length (row_of armors maxcost i) = Z.to_nat (maxcost + 1).
Proof. unfold row_of. by rewrite length_map, length_seq. Qed.

Lemma table_lookup armors maxcost rows i :
  (i < rows)%nat -> table armors maxcost rows !! i = Some (row_of armors maxcost i).
Proof.
  intros Hi. unfold table. by rewrite list_lookup_fmap, lookup_seq_lt by lia.
Qed.

Lemma at_int_row armors maxcost i j :
  0 <= j <= maxcost -> at_int (row_of armors maxcost i) j = Returned (T armors i j).
Proof.
  intros Hj. unfold at_int, at_.
  destruct (Z.ltb_spec j 0); [lia|]. by rewrite row_of_lookup.
Qed.

Lemma index_table armors maxcost rows i :
  (i < rows)%nat -> index (table armors maxcost rows) i = Returned (row_of armors maxcost i).
Proof. intros Hi. unfold index. by rewrite table_lookup. Qed.

Lemma positive_costs_lookup armors i item :
  positive_costs armors -> armors !! i = Some item -> 0 < cost item.
Proof. intros Hp Hi. by apply (Forall_lookup_1 _ _ _ _ Hp Hi). Qed.

Lemma cell_table armors maxcost i j :
  positive_costs armors ->
  (i <= length armors)%nat -> 0 <= j <= maxcost ->
  cell armors (table armors maxcost i) i j = Returned (T armors i j).
Proof.
  intros Hp Hi Hj. destruct i as [|i']; [done|].
  cbn [cell T]. destruct (j =? 0); [done|].
  destruct (lookup_lt_is_Some_2 armors i' ltac:(lia)) as [item Hitem].
  unfold at_ at 1. rewrite Hitem. cbn [bind].
  rewrite index_table by lia. cbn [bind].
  pose proof (positive_costs_lookup _ _ _ Hp Hitem).
  destruct (Z.leb_spec (cost item) j).
  - rewrite !at_int_row by lia. reflexivity.
  - rewrite at_int_row by lia. reflexivity.
Qed.

Lemma fill_row_table armors maxcost i count done_ :
  positive_costs armors -> (i <= length armors)%nat ->
  (done_ + count = Z.to_nat (maxcost + 1))%nat ->
  fill_row armors (table armors maxcost i) i count (Z.of_nat done_)
    (map (fun j => T armors i (Z.of_nat j)) (seq 0 done_))
  = Returned (row_of armors maxcost i).
Proof.
  intros Hp Hi. revert done_.
  induction count as [|count IH]; intros done_ Hc; simpl.
  - unfold row_of. by replace (Z.to_nat (maxcost + 1)) with done_ by lia.
  - rewrite cell_table by (done || lia). simpl.
    replace (Z.of_nat done_ + 1) with (Z.of_nat (S done_)) by lia.
    rewrite <- (IH (S done_)) by lia.
    by rewrite seq_S, map_app.
Qed.

Lemma fill_matrix_table armors maxcost count i :
  positive_costs armors ->
  (i + count = S (length armors))%nat ->
  fill_matrix armors maxcost count i (table armors maxcost i)
  = Returned (table armors maxcost (S (length armors))).
Proof.
  intros Hp. revert i.
  induction count as [|count IH]; intros i Hc; simpl.
  - by replace (S (length armors)) with i by lia.
  - rewrite (fill_row_table armors maxcost i _ 0) by (done || lia). simpl.
    rewrite <- (IH (S i)) by lia.
    unfold table. by rewrite seq_S, map_app.
Qed.

Lemma build_matrix_table armors maxcost :
  positive_costs armors ->
  build_matrix armors maxcost = Returned (table armors maxcost (S (length armors))).
Proof. intros Hp. by apply (fill_matrix_table armors maxcost _ 0). Qed.

End Facts.

(** ** Arithmetic without rounding *)

Section ExactFacts.

Context {A : Arith} (E : Exact A).

Implicit Types (armors : ArmorVector A).







Lemma T_zero armors i : T armors i 0 = d0.
Proof. destruct i; done. Qed.








End ExactFacts.

(** ** The enumeration of [exhaustive_max_defense] *)

Section Enumeration.

Context {A : Arith}.

Implicit Types (armors : ArmorVector A).

Lemma land_1_odd (x : Z) : (Z.land x 1 =? 1) = Z.odd x.
Proof.
  change 1 with (Z.ones 1) at 1. rewrite Z.land_ones by lia.
  change (2 ^ 1) with 2. rewrite Zmod_odd. by destruct (Z.odd x).
Qed.

Lemma build_candidate_select armors bits count done_ candidate :
  (done_ + count = length armors)%nat -> (length armors <= 32)%nat ->
  build_candidate armors bits count (Z.of_nat done_) candidate
  = Returned (candidate ++ select (drop done_ armors) (Z.shiftr bits (Z.of_nat done_))).
Proof.
  intros Hc Hn. revert done_ candidate Hc.
  induction count as [|count IH]; intros done_ candidate Hc; cbn [build_candidate].
  - rewrite drop_ge by lia. simpl. by rewrite app_nil_r.
  - unfold int_shr.
    replace ((0 <=? Z.of_nat done_) && (Z.of_nat done_ <? 32)) with true
      by (symmetry; apply andb_true_iff; split; [apply Z.leb_le|apply Z.ltb_lt]; lia).
    cbn [bind]. rewrite land_1_odd.
    destruct (lookup_lt_is_Some_2 armors done_ ltac:(lia)) as [item Hitem].
    rewrite (drop_S _ _ _ Hitem). cbn [select].
    replace (Z.div2 (Z.shiftr bits (Z.of_nat done_)))
      with (Z.shiftr bits (Z.of_nat (S done_))).
    2:{ rewrite Z.div2_spec, Z.shiftr_shiftr by lia. f_equal. lia. }
    replace (Z.of_nat done_ + 1) with (Z.of_nat (S done_)) by lia.
    destruct (Z.odd (Z.shiftr bits (Z.of_nat done_))).
    + unfold index. rewrite Nat2Z.id, Hitem. cbn [bind].
      rewrite IH by lia. by rewrite <- app_assoc.
    + by rewrite IH by lia.
Qed.

Lemma build_candidate_all armors bits :
  (length armors <= 32)%nat ->
  build_candidate armors bits (length armors) 0 [] = Returned (select armors bits).
Proof.
  intros Hn.
  pose proof (build_candidate_select armors bits (length armors) 0 []
                ltac:(lia) Hn) as H.
  by rewrite drop_0, Z.shiftr_0_r, app_nil_l in H.
Qed.

Lemma select_sublist armors bits : sublist (select armors bits) armors.
Proof.
  revert bits. induction armors as [|a l IH]; intros bits; simpl.
  - constructor.
  - destruct (Z.odd bits); constructor; apply IH.
Qed.


Lemma build_candidate_outcome armors bits count j candidate :
  returned_or_undefined (build_candidate armors bits count j candidate).
Proof.
  revert j candidate. induction count as [|count IH]; intros j candidate; simpl; [done|].
  unfold int_shr. destruct ((0 <=? j) && (j <? 32)); simpl; [|done].
  destruct (Z.land (Z.shiftr bits j) 1 =? 1); [|apply IH].
  unfold index. destruct (armors !! Z.to_nat j); simpl; [apply IH|done].
Qed.

Lemma sum_loop_outcome armors total_cost total_defense :
  returned_or_undefined (sum_loop armors total_cost total_defense).
Proof.
  revert total_cost total_defense.
  induction armors as [|a l IH]; intros tc td; simpl; [done|].
  unfold int_add. destruct (in_int (tc + cost a)); simpl; [apply IH|done].
Qed.

(** With 2^31 <= 2^n the test [bits < pow(2,n)] holds for every [int]: the
    loop can only end in undefined behaviour, at the latest when [bits++]
    overflows. *)
Lemma search_undefined armors total_cost fuel bits best best_defense :
  2 ^ 31 <= 2 ^ Z.of_nat (length armors) ->
  0 <= bits <= INT_MAX -> (Z.to_nat (INT_MAX - bits) < fuel)%nat ->
  search armors total_cost fuel bits best best_defense = Undefined.
Proof.
  intros Hn. revert bits best best_defense.
  induction fuel as [|fuel IH]; intros bits best bd Hb Hf; [lia|].
  cbn [search]. unfold INT_MAX in Hb.
  destruct (Z.ltb_spec bits (2 ^ Z.of_nat (length armors))); [|lia].
  pose proof (build_candidate_outcome armors bits (length armors) 0 []) as Hc.
  destruct (build_candidate armors bits (length armors) 0 []) as [candidate| | | |];
    try done.
  cbn [bind].
  pose proof (sum_loop_outcome candidate 0 d0) as Hs. unfold sum_armor_vector.
  destruct (sum_loop candidate 0 d0) as [[c d]| | | |]; try done.
  cbn [bind].
  destruct (if dleb (of_int c) total_cost
            then if best_is_nullptr || dltb bd d then (candidate, d) else (best, bd)
            else (best, bd)) as [best' bd'].
  unfold int_add, in_int, INT_MIN.
  destruct (Z.eq_dec bits INT_MAX) as [->|Hne].
  - done.
  - unfold INT_MAX in *.
    replace ((- 2 ^ 31 <=? bits + 1) && (bits + 1 <=? 2 ^ 31 - 1)) with true
      by (symmetry; apply andb_true_iff; split; apply Z.leb_le; lia).
    cbn [bind]. apply IH; lia.
Qed.

(** A catalog of 31 to 63 armors passes the assertion and overflows [bits]. *)
Lemma exhaustive_undefined armors total_cost :
  (31 <= length armors < 64)%nat ->
  exhaustive_max_defense armors total_cost = Undefined.
Proof.
  intros Hn. unfold exhaustive_max_defense.
  destruct (Z.ltb_spec (Z.of_nat (length armors)) 64); [|lia]. cbn [negb].
  assert (2 ^ 31 <= 2 ^ Z.of_nat (length armors)) as Hpow
    by (apply Z.pow_le_mono_r; lia).
  apply search_undefined; [done|unfold INT_MAX; lia|].
  unfold search_fuel. rewrite Z.min_r by (unfold INT_MAX; lia).
  unfold INT_MAX. lia.
Qed.

(** In every arithmetic and for every number of armors, what the loop returns
    is the initial [best] or a candidate that passed the budget test. *)
Lemma search_returns_tested armors total_cost fuel bits best best_defense sol :
  search armors total_cost fuel bits best best_defense = Returned sol ->
  sol = best \/ feasible (fits total_cost) sol.
Proof.
  revert bits best best_defense.
  induction fuel as [|fuel IH]; intros bits best bd; cbn [search]; [done|].
  destruct (bits <? 2 ^ Z.of_nat (length armors)).
  2:{ intros H. inversion H. by left. }
  destruct (build_candidate armors bits (length armors) 0 []) as [candidate| | | |];
    try done.
  cbn [bind].
  destruct (sum_armor_vector candidate) as [[c d]| | | |] eqn:Hsum; try done.
  cbn [bind].
  destruct (dleb (of_int c) total_cost) eqn:Hle;
    [destruct (best_is_nullptr || dltb bd d)|];
    (destruct (int_add bits 1) as [bits'| | | |]; try done); cbn [bind].
  - intros H. apply IH in H as [->|H]; [|by right].
    right. by exists c, d.
  - apply IH.
  - apply IH.
Qed.

Lemma exhaustive_returns_tested armors total_cost sol :
  exhaustive_max_defense armors total_cost = Returned sol ->
  sol = [] \/ feasible (fits total_cost) sol.
Proof.
  unfold exhaustive_max_defense.
  destruct (negb (Z.of_nat (length armors) <? 64)); [done|].
  apply search_returns_tested.
Qed.

(** The bound on the iterations is never what ends the loop. *)
Lemma search_fuel_enough armors total_cost left fuel bits best best_defense :
  0 <= bits ->
  bits + Z.of_nat left = Z.min (2 ^ Z.of_nat (length armors)) (INT_MAX + 1) ->
  (left < fuel)%nat ->
  search armors total_cost fuel bits best best_defense <> OutOfFuel.
Proof.
  revert fuel bits best best_defense.
  induction left as [|left IH]; intros fuel bits best bd Hb Hleft Hfuel;
    (destruct fuel as [|fuel]; [lia|]); cbn [search];
    (destruct (Z.ltb_spec bits (2 ^ Z.of_nat (length armors))); [|done]);
    pose proof (build_candidate_outcome armors bits (length armors) 0 []) as Hc;
    (destruct (build_candidate armors bits (length armors) 0 []) as [candidate| | | |];
       try done);
    cbn [bind]; unfold sum_armor_vector;
    pose proof (sum_loop_outcome candidate 0 d0) as Hs;
    (destruct (sum_loop candidate 0 d0) as [[c d]| | | |]; try done);
    cbn [bind];
    (destruct (if dleb (of_int c) total_cost
               then if best_is_nullptr || dltb bd d then (candidate, d) else (best, bd)
               else (best, bd)) as [best' bd']);
    unfold int_add; (destruct (in_int (bits + 1)) eqn:Hin; [|done]); cbn [bind].
  - unfold in_int in Hin. apply andb_true_iff in Hin as [_ Hin].
    apply Z.leb_le in Hin. lia.
  - apply IH; lia.
Qed.

Lemma exhaustive_never_out_of_fuel armors total_cost :
  exhaustive_max_defense armors total_cost <> OutOfFuel.
Proof.
  unfold exhaustive_max_defense.
  destruct (negb (Z.of_nat (length armors) <? 64)); [done|].
  assert (0 < 2 ^ Z.of_nat (length armors)) by (apply Z.pow_pos_nonneg; lia).
  apply (search_fuel_enough armors total_cost
           (Z.to_nat (Z.min (2 ^ Z.of_nat (length armors)) (INT_MAX + 1)))).
  - lia.
  - unfold INT_MAX in *. lia.
  - unfold search_fuel. lia.
Qed.


End Enumeration.

Section ExactSearch.

Context {A : Arith} (E : Exact A).

Implicit Types (armors : ArmorVector A).

Lemma search_pass armors total_cost fuel bits best best_defense :
  positive_costs armors -> cost_sum armors <= INT_MAX -> (length armors <= 30)%nat ->
  0 <= bits < 2 ^ Z.of_nat (length armors) ->
  search armors total_cost (S fuel) bits best best_defense
  = let '(best', best_defense') :=
      consider total_cost best best_defense (select armors bits) in
    search armors total_cost fuel (bits + 1) best' best_defense'.
Proof.
  intros Hp Hfit Hn Hb. cbn [search].
  destruct (Z.ltb_spec bits (2 ^ Z.of_nat (length armors))); [|lia].
  rewrite build_candidate_all by lia. cbn [bind].
  pose proof (select_sublist armors bits) as Hsub.
  rewrite sum_armor_vector_fits.
  2:{ by eapply positive_costs_sublist. }
  2:{ pose proof (cost_sum_sublist _ _ Hsub Hp). lia. }
  cbn [bind]. unfold consider.
  assert (2 ^ Z.of_nat (length armors) <= 2 ^ 30) by (apply Z.pow_le_mono_r; lia).
  unfold int_add, in_int, INT_MIN, INT_MAX.
  replace ((- 2 ^ 31 <=? bits + 1) && (bits + 1 <=? 2 ^ 31 - 1)) with true
    by (symmetry; apply andb_true_iff; split; apply Z.leb_le; lia).
  cbn [bind]. reflexivity.
Qed.




End ExactSearch.

(** For at most 30 armors the loop considers the candidates of the masks
    0, 1, ..., 2^n - 1, each once and in this order. *)
Lemma search_masks {A : Arith} (armors : ArmorVector A) total_cost left fuel bits
    best best_defense :
  positive_costs armors -> cost_sum armors <= INT_MAX -> (length armors <= 30)%nat ->
  0 <= bits -> bits + Z.of_nat left = 2 ^ Z.of_nat (length armors) ->
  (left < fuel)%nat ->
  search armors total_cost fuel bits best best_defense
  = Returned
      (fold_left (fun st m => consider total_cost st.1 st.2 (select armors m))
                 (seqZ bits (Z.of_nat left)) (best, best_defense)).1.
Proof.
  intros Hp Hfit Hn. revert fuel bits best best_defense.
  induction left as [|left IH]; intros fuel bits best bd Hb Hleft Hfuel.
  - destruct fuel as [|fuel]; [lia|]. cbn [search].
    destruct (Z.ltb_spec bits (2 ^ Z.of_nat (length armors))); [lia|]. done.
  - destruct fuel as [|fuel]; [lia|].
    rewrite (search_pass armors total_cost fuel bits best bd Hp Hfit Hn) by lia.
    rewrite seqZ_cons by lia.
    replace (Z.succ bits) with (bits + 1) by lia.
    replace (Z.pred (Z.of_nat (S left))) with (Z.of_nat left) by lia.
    cbn [fold_left fst snd].
    destruct (consider total_cost best bd (select armors bits)) as [best' bd'].
    by rewrite (IH fuel (bits + 1) best' bd') by lia.
Qed.

Lemma exhaustive_masks {A : Arith} (armors : ArmorVector A) total_cost :
  positive_costs armors -> cost_sum armors <= INT_MAX -> (length armors <= 30)%nat ->
  exhaustive_max_defense armors total_cost
  = Returned
      (fold_left (fun st m => consider total_cost st.1 st.2 (select armors m))
                 (seqZ 0 (2 ^ Z.of_nat (length armors))) ([], d0)).1.
Proof.
  intros Hp Hfit Hn. unfold exhaustive_max_defense.
  destruct (Z.ltb_spec (Z.of_nat (length armors)) 64); [|lia]. cbn [negb].
  assert (0 < 2 ^ Z.of_nat (length armors) <= 2 ^ 30) as Hpow.
  { split; [apply Z.pow_pos_nonneg; lia|apply Z.pow_le_mono_r; lia]. }
  rewrite (search_masks armors total_cost
             (Z.to_nat (2 ^ Z.of_nat (length armors)))) by
    (done || (unfold search_fuel, INT_MAX; lia)).
  by rewrite Z2Nat.id by lia.
Qed.


Section Bridges.

Context {A : Arith} (E : Exact A).

Implicit Types (armors sol : ArmorVector A).






End Bridges.





Section TableFacts.

Context {A : Arith} (E : Exact A).

Implicit Types (armors : ArmorVector A).



End TableFacts.

(** ** Degenerate inputs *)

Section Degenerate.

Context {A : Arith}.

Implicit Types (armors : ArmorVector A).





End Degenerate.

(** ** The scenarios of the specification, in binary64 *)

Example scenario1_dynamic :
  aggregate_of (dynamic_max_defense scenario1_binary64 5) = Returned (5, 7%float).
Proof. vm_compute. reflexivity. Qed.

Example scenario1_exhaustive :
  aggregate_of (exhaustive_max_defense scenario1_binary64 (of_int 5))
  = Returned (5, 7%float).
Proof. vm_compute. reflexivity. Qed.

Example scenario2_dynamic :
  aggregate_of (dynamic_max_defense scenario2 50) = Returned (50, 220%float).
Proof. vm_compute. reflexivity. Qed.

Example scenario2_exhaustive :
  aggregate_of (exhaustive_max_defense scenario2 (of_int 50)) = Returned (50, 220%float).
Proof. vm_compute. reflexivity. Qed.

Example scenario3_both :
  dynamic_max_defense [@armor Binary64 10 5%float] 5 = Returned []
  /\ exhaustive_max_defense [@armor Binary64 10 5%float] (of_int 5) = Returned [].
Proof. split; vm_compute; reflexivity. Qed.

Example scenario4_both :
  aggregate_of (dynamic_max_defense (ones 5) 3) = Returned (3, 3%float)
  /\ aggregate_of (exhaustive_max_defense (ones 5) (of_int 3)) = Returned (3, 3%float).
Proof. split; vm_compute; reflexivity. Qed.

(** A negative budget: [matrix[n].at(maxcost)] throws. *)
Example negative_budget_throws :
  dynamic_max_defense scenario1_binary64 (-1) = OutOfRange.
Proof. vm_compute. reflexivity. Qed.

(** Binary64 rounds: no embedding into the rationals makes its operations
    exact, so the theorems below that assume [Exact] say nothing of a run in
    which a sum is rounded. *)
Lemma Binary64_not_exact : Exact Binary64 -> False.
Proof.
  intros E.
  pose (a := 0x1.999999999999ap-4%float : @dbl Binary64).
  pose (b := 0x1.999999999999ap-3%float : @dbl Binary64).
  pose (c := 0x1.3333333333333p-2%float : @dbl Binary64).
  assert (deqb (dadd (dadd a b) c) (dadd (dadd c b) a) = true) as H.
  { apply (val_deqb _ E). rewrite !(val_dadd _ E). lra. }
  vm_compute in H. discriminate H.
Qed.

(** * The claims *)



















(** C7: called with 64 armors or more, [exhaustive_max_defense] fails the
    assertion [n < 64]: it aborts and returns nothing. *)
Theorem exhaustive_refuses_64 (A : Arith) (armors : ArmorVector A) (total_cost : dbl) :
  (64 <= length armors)%nat ->
  exhaustive_max_defense armors total_cost = AssertionFailed.
Proof.
  intros Hn. unfold exhaustive_max_defense.
  destruct (Z.ltb_spec (Z.of_nat (length armors)) 64); [lia|]. reflexivity.
Qed.

Lemma exhaustive_refuses_64_witness :
  exhaustive_max_defense (ones 64) (of_int 500)
  = AssertionFailed.
Proof.
  apply (exhaustive_refuses_64 Binary64). unfold ones. rewrite repeat_length. lia.
Defined.



(** C4 at a catalog of 31 armors: the counter [bits] is an [int], the test
    [bits < pow(2,31)] holds for every [int], and the loop over the masks ends
    in the overflow of [bits++] instead of after mask 2^31 - 1. *)
Lemma masks_overflow_at_31_armors :
  exhaustive_max_defense (ones 31) (of_int 31)
  = Undefined.
Proof. apply exhaustive_undefined. unfold ones. rewrite repeat_length. lia. Qed.

(** C2 at two failing inputs.  On two armors of cost 2^30 each, the aggregate
    cost of the candidate of mask 3 leaves [int] in [sum_armor_vector]:
    undefined behaviour (on a machine that wraps, the sum is -2^31, the budget
    test passes and both armors are returned, at cost 2^31 against budget 0).
    On 40 armors the shift [bits >> 32] on the first mask is undefined.
    Neither call returns a feasible solution. *)
Lemma exhaustive_overflows :
  exhaustive_max_defense costly (of_int 0) = Undefined
  /\ exhaustive_max_defense (ones 40) (of_int 40) = Undefined.
Proof.
  split.
  - vm_compute. reflexivity.
  - apply exhaustive_undefined. unfold ones. rewrite repeat_length. lia.
Qed.

(** * Further properties of the code *)

(** ** Lemmas on the two solvers *)

Section SolverFacts.

Context {A : Arith}.

Implicit Types (armors : ArmorVector A) (matrix : list (list dbl)).

Lemma at_int_row_outside armors maxcost i j :
  ~ 0 <= j <= maxcost -> at_int (row_of armors maxcost i) j = OutOfRange.
Proof.
  intros Hj. unfold at_int, at_.
  destruct (Z.ltb_spec j 0); [done|].
  rewrite lookup_ge_None_2; [done|]. rewrite row_of_length. lia.
Qed.

(** With a negative [maxcost] the loop over [j] has no iteration: every row
    is empty. *)
Lemma fill_matrix_negative armors maxcost count i matrix :
  maxcost < 0 ->
  fill_matrix armors maxcost count i matrix = Returned (matrix ++ replicate count []).
Proof.
  intros Hneg. revert i matrix.
  induction count as [|count IH]; intros i matrix; cbn [fill_matrix].
  - by rewrite app_nil_r.
  - replace (Z.to_nat (maxcost + 1)) with O by lia. cbn [fill_row bind].
    rewrite IH. cbn [replicate]. by rewrite <- app_assoc.
Qed.

(** The walk appends armors at decreasing positions. *)
Lemma walk_sublist armors matrix n maxcost matrixValue result s :
  walk armors matrix n maxcost matrixValue result = Returned s ->
  sublist (rev result) (drop n armors) ->
  sublist (rev (ws_result s)) armors.
Proof.
  revert maxcost matrixValue result.
  induction n as [|n IH]; intros maxcost mv result; cbn [walk].
  - intros H Hsub. inversion H; subst. cbn [ws_result]. by rewrite drop_0 in Hsub.
  - assert (sublist (drop (S n) armors) (drop n armors)) as Hstep.
    { replace (S n) with (n + 1)%nat by lia.
      rewrite <- drop_drop. apply sublist_drop. }
    destruct (deqb mv d0).
    { intros H Hsub. inversion H; subst. cbn [ws_result].
      etrans; [done|]. apply sublist_drop. }
    destruct (index matrix (S n)) as [row_n| | | |]; try done. cbn [bind].
    destruct (at_int row_n maxcost) as [here| | | |]; try done. cbn [bind].
    destruct (index matrix n) as [row_p| | | |]; try done. cbn [bind].
    destruct (at_int row_p maxcost) as [above| | | |]; try done. cbn [bind].
    destruct (negb (deqb here above)).
    + unfold at_. destruct (armors !! n) as [item|] eqn:Hitem; [|done]. cbn [bind].
      intros H Hsub. apply IH in H; [done|].
      rewrite rev_unit, (drop_S _ _ _ Hitem). by apply sublist_skip.
    + intros H Hsub. apply IH in H; [done|]. by etrans.
Qed.


Lemma dynamic_sublist armors total_cost sol :
  dynamic_max_defense armors total_cost = Returned sol -> sublist (rev sol) armors.
Proof.
  unfold dynamic_max_defense, dynamic_walk.
  destruct (build_matrix armors total_cost) as [matrix| | | |]; try done. cbn [bind].
  destruct (index matrix (length armors)) as [row_n| | | |]; try done. cbn [bind].
  destruct (at_int row_n total_cost) as [mv| | | |]; try done. cbn [bind].
  destruct (walk armors matrix (length armors) total_cost mv []) as [s| | | |] eqn:Hw;
    try done.
  cbn [bind]. intros H. inversion H; subst.
  apply (walk_sublist _ _ _ _ _ _ _ Hw). apply sublist_nil_l.
Qed.

(** The candidate of a mask holds armors of the catalog, in its order. *)
Lemma build_candidate_sublist armors bits count j candidate c :
  0 <= j ->
  build_candidate armors bits count j candidate = Returned c ->
  sublist candidate (take (Z.to_nat j) armors) -> sublist c armors.
Proof.
  revert j candidate.
  induction count as [|count IH]; intros j candidate Hj; cbn [build_candidate].
  - intros H Hsub. inversion H; subst. etrans; [done|]. apply sublist_take.
  - destruct (int_shr bits j) as [shifted| | | |]; try done. cbn [bind].
    assert (sublist (take (Z.to_nat j) armors) (take (Z.to_nat (j + 1)) armors))
      as Hstep.
    { replace (Z.to_nat (j + 1)) with (S (Z.to_nat j)) by lia.
      destruct (armors !! Z.to_nat j) as [item|] eqn:Hitem.
      - rewrite (take_S_r _ _ _ Hitem). by apply sublist_inserts_r.
      - apply lookup_ge_None_1 in Hitem. by rewrite !take_ge by lia. }
    destruct (Z.land shifted 1 =? 1).
    + unfold index. destruct (armors !! Z.to_nat j) as [item|] eqn:Hitem; [|done].
      cbn [bind]. intros H Hsub. apply IH in H; [done|lia|].
      replace (Z.to_nat (j + 1)) with (S (Z.to_nat j)) by lia.
      rewrite (take_S_r _ _ _ Hitem). by apply sublist_app.
    + intros H Hsub. apply IH in H; [done|lia|]. by etrans.
Qed.

Lemma search_sublist armors total_cost fuel bits best best_defense sol :
  search armors total_cost fuel bits best best_defense = Returned sol ->
  sublist best armors -> sublist sol armors.
Proof.
  revert bits best best_defense.
  induction fuel as [|fuel IH]; intros bits best bd; cbn [search]; [done|].
  destruct (bits <? 2 ^ Z.of_nat (length armors)).
  2:{ intros H. by inversion H. }
  destruct (build_candidate armors bits (length armors) 0 []) as [candidate| | | |]
    eqn:Hc; try done.
  apply build_candidate_sublist in Hc; [|lia|apply sublist_nil_l].
  cbn [bind].
  destruct (sum_armor_vector candidate) as [[c d]| | | |]; try done.
  cbn [bind].
  destruct (dleb (of_int c) total_cost);
    [destruct (best_is_nullptr || dltb bd d)|];
    (destruct (int_add bits 1) as [bits'| | | |]; try done); cbn [bind];
    intros H Hsub; apply IH in H; done.
Qed.

(** The loop over the masks asserts nothing. *)
Lemma search_asserts_nothing armors total_cost fuel bits best best_defense :
  search armors total_cost fuel bits best best_defense <> AssertionFailed.
Proof.
  revert bits best best_defense.
  induction fuel as [|fuel IH]; intros bits best bd; cbn [search]; [done|].
  destruct (bits <? 2 ^ Z.of_nat (length armors)); [|done].
  pose proof (build_candidate_outcome armors bits (length armors) 0 []) as Hc.
  destruct (build_candidate armors bits (length armors) 0 []) as [candidate| | | |];
    try done.
  cbn [bind]. unfold sum_armor_vector.
  pose proof (sum_loop_outcome candidate 0 d0) as Hs.
  destruct (sum_loop candidate 0 d0) as [[c d]| | | |]; try done.
  cbn [bind].
  destruct (if dleb (of_int c) total_cost
            then if best_is_nullptr || dltb bd d then (candidate, d) else (best, bd)
            else (best, bd)) as [best' bd'].
  unfold int_add. destruct (in_int (bits + 1)); [|done]. cbn [bind]. apply IH.
Qed.

(** [total_cost += cost] overflows as soon as the costs read so far add up
    to more than [INT_MAX]. *)
Lemma sum_loop_overflows armors total_cost total_defense :
  positive_costs armors -> 0 <= total_cost <= INT_MAX ->
  INT_MAX < total_cost + cost_sum armors ->
  sum_loop armors total_cost total_defense = Undefined.
Proof.
  intros Hp. revert total_cost total_defense.
  induction Hp as [|a l Ha Hl IH]; intros tc td Htc Hover; simpl in *; [lia|].
  unfold int_add, in_int.
  destruct (Z.leb_spec (tc + cost a) INT_MAX) as [Hle|Hgt].
  - replace (INT_MIN <=? tc + cost a) with true
      by (symmetry; apply Z.leb_le; unfold INT_MIN; lia).
    cbn [andb bind]. apply IH; lia.
  - by rewrite andb_false_r.
Qed.

End SolverFacts.

Section NaNFacts.

Context {A : Arith} (L : NaNLaws A).

Implicit Types (armors : ArmorVector A).

Lemma deqb_d0 : deqb (d0 : @dbl A) d0 = true.
Proof. destruct (deqb_refl A L d0) as [H|H]; [done|]. by destruct (d0_number A L). Qed.

Lemma deqb_same_false (x : @dbl A) : deqb x x = false -> is_NaN L x.
Proof. intros H. destruct (deqb_refl A L x) as [H'|H']; [congruence|done]. Qed.

(** What the walk keeps: [maxcost] is an index of the row, unless
    [matrixValue] is a NaN and the walk goes on; and [matrixValue] is a NaN
    whenever the entry the walk stands on is one. *)
Lemma walk_feasible armors budget n maxcost matrixValue result s :
  positive_costs armors -> (n <= length armors)%nat ->
  walk armors (table armors budget (S (length armors))) n maxcost matrixValue result
  = Returned s ->
  (0 <= maxcost \/ (is_NaN L matrixValue /\ n <> O)) ->
  (0 <= maxcost -> is_NaN L (T armors n maxcost) -> is_NaN L matrixValue) ->
  0 <= ws_maxcost s
  /\ cost_sum (ws_result s) + ws_maxcost s = cost_sum result + maxcost.
Proof.
  intros Hp. revert maxcost matrixValue result.
  induction n as [|n IH]; intros mc mv result Hn; cbn [walk].
  - intros H Hmc _. inversion H; subst. cbn [ws_maxcost ws_result].
    split; [|done]. by destruct Hmc as [?|[_ ?]].
  - destruct (deqb mv d0) eqn:Hz.
    { intros H Hmc _. inversion H; subst. cbn [ws_maxcost ws_result].
      split; [|done]. destruct Hmc as [?|[Hnan _]]; [done|].
      by rewrite (deqb_nan_l A L) in Hz. }
    rewrite !index_table by lia. cbn [bind].
    destruct (decide (0 <= mc <= budget)) as [Hin|Hout].
    2:{ by rewrite at_int_row_outside. }
    rewrite !at_int_row by done. cbn [bind].
    destruct (lookup_lt_is_Some_2 armors n ltac:(lia)) as [item Hitem].
    pose proof (positive_costs_lookup _ _ _ Hp Hitem) as Hpos.
    destruct (deqb (T armors (S n) mc) (T armors n mc)) eqn:Heq; cbn [negb].
    + (* the armor is left out *)
      intros H _ Hinv. apply IH in H; [done|lia|left; lia|].
      intros _ Hnan. by rewrite (deqb_nan_r A L) in Heq.
    + (* the armor is taken *)
      unfold at_. rewrite Hitem. cbn [bind].
      intros H _ Hinv. specialize (Hinv ltac:(lia)).
      assert (cost_sum (result ++ [item]) + (mc - cost item) = cost_sum result + mc)
        as Hsum by (rewrite cost_sum_app; simpl; lia).
      rewrite <- Hsum. revert Heq Hinv. cbn [T]. rewrite Hitem.
      destruct (Z.eqb_spec mc 0) as [->|Hne].
      { rewrite T_zero, deqb_d0. done. }
      destruct (Z.leb_spec (cost item) mc) as [Hle|Hgt].
      * intros Heq Hinv. apply IH in H; [done|lia|left; lia|].
        intros _ Hnan. apply (dsub_nan A L). apply Hinv.
        unfold dmax in *.
        destruct (dltb (dadd (defense item) (T armors n (mc - cost item)))
                       (T armors n mc)).
        -- by apply deqb_same_false.
        -- by apply (dadd_nan A L).
      * intros Heq Hinv. apply deqb_same_false in Heq as Hnan.
        apply IH in H; [done|lia| |lia].
        right. split; [by apply (dsub_nan A L), Hinv|].
        intros ->. cbn [T] in Heq. by rewrite deqb_d0 in Heq.
Qed.


Lemma dynamic_cost_bound armors total_cost sol :
  positive_costs armors ->
  dynamic_max_defense armors total_cost = Returned sol ->
  cost_sum sol <= total_cost.
Proof.
  intros Hp. unfold dynamic_max_defense, dynamic_walk.
  rewrite build_matrix_table by done. cbn [bind].
  rewrite index_table by lia. cbn [bind].
  destruct (decide (0 <= total_cost <= total_cost)) as [Hin|Hout].
  2:{ by rewrite at_int_row_outside. }
  rewrite at_int_row by done. cbn [bind].
  destruct (walk armors _ (length armors) total_cost _ []) as [s| | | |] eqn:Hw;
    try done.
  cbn [bind]. intros H. inversion H; subst.
  apply walk_feasible in Hw; [|done|lia|left; lia|done].
  simpl in Hw. lia.
Qed.

End NaNFacts.

(** ** The two solvers on every input *)

(** X1: [dynamic_max_defense] with a negative budget throws
    [std::out_of_range], whatever the catalog: every row of the table is
    empty, and [matrix[n].at(maxcost)] is out of its range. *)
Theorem dynamic_negative_budget_throws (A : Arith) (armors : ArmorVector A)
    (total_cost : Z) :
  total_cost < 0 -> dynamic_max_defense armors total_cost = OutOfRange.
Proof.
  intros Hneg. unfold dynamic_max_defense, dynamic_walk, build_matrix.
  rewrite fill_matrix_negative by done. cbn [bind app].
  unfold index. rewrite lookup_replicate_2 by lia.
  cbn [bind]. unfold at_int.
  by destruct (Z.ltb_spec total_cost 0); [|lia].
Qed.

Lemma dynamic_negative_budget_throws_witness :
  -1 < 0 /\ dynamic_max_defense scenario2 (-1) = OutOfRange.
Proof.
  split; [lia|]. apply (dynamic_negative_budget_throws Binary64). lia.
Defined.

(** X2: whatever the arithmetic does, the armors [dynamic_max_defense]
    returns are armors of the catalog, each position taken at most once, in
    the reverse of the order of the catalog. *)
Theorem dynamic_returns_catalog_armors (A : Arith) (armors : ArmorVector A)
    (total_cost : Z) (sol : ArmorVector A) :
  dynamic_max_defense armors total_cost = Returned sol ->
  sublist (rev sol) armors.
Proof. apply dynamic_sublist. Qed.

Lemma dynamic_returns_catalog_armors_witness :
  dynamic_max_defense tenths_and_sum 6 = Returned (rev (take 3 tenths_and_sum))
  /\ sublist (rev (rev (take 3 tenths_and_sum))) tenths_and_sum.
Proof.
  split; [vm_compute; reflexivity|].
  apply (dynamic_returns_catalog_armors Binary64 tenths_and_sum 6).
  vm_compute. reflexivity.
Defined.

(** X3: in an arithmetic with NaNs, binary64 among them, the armors
    [dynamic_max_defense] returns never cost more than the budget: a walk
    that a NaN in the table leads past the budget ends in
    [std::out_of_range], not in a return. *)
Theorem dynamic_within_budget (A : Arith) (L : NaNLaws A) (armors : ArmorVector A)
    (total_cost : Z) (sol : ArmorVector A) :
  positive_costs armors ->
  dynamic_max_defense armors total_cost = Returned sol ->
  cost_sum sol <= total_cost.
Proof. by apply dynamic_cost_bound. Qed.

Lemma dynamic_within_budget_witness :
  positive_costs tenths_and_sum
  /\ dynamic_max_defense tenths_and_sum 5
     = Returned [@armor Binary64 5 0x1.3333333333334p-1%float]
  /\ cost_sum [@armor Binary64 5 0x1.3333333333334p-1%float] <= 5.
Proof.
  assert (positive_costs tenths_and_sum) as Hp
    by (repeat constructor; simpl; lia).
  split; [done|]. split; [vm_compute; reflexivity|].
  apply (dynamic_within_budget Binary64 Binary64NaN tenths_and_sum 5); [done|].
  vm_compute. reflexivity.
Defined.

(** X4: whatever the arithmetic does and however many armors there are, what
    [exhaustive_max_defense] returns is a selection of the catalog in the
    order of the catalog, and it is empty or its cost passed the test
    [total_gold_cost <= total_cost]. *)
Theorem exhaustive_returns_tested_selection (A : Arith) (armors : ArmorVector A)
    (total_cost : dbl) (sol : ArmorVector A) :
  exhaustive_max_defense armors total_cost = Returned sol ->
  sublist sol armors /\ (sol = [] \/ feasible (fits total_cost) sol).
Proof.
  intros H. split; [|by apply (exhaustive_returns_tested armors total_cost)].
  revert H. unfold exhaustive_max_defense.
  destruct (negb (Z.of_nat (length armors) <? 64)); [done|].
  intros H. apply search_sublist in H; [done|apply sublist_nil_l].
Qed.

Lemma exhaustive_returns_tested_selection_witness :
  exhaustive_max_defense tenths (@of_int Binary64 2) = Returned (drop 1 tenths)
  /\ sublist (drop 1 tenths) tenths
  /\ (drop 1 tenths = [] \/ feasible (fits (@of_int Binary64 2)) (drop 1 tenths)).
Proof.
  split; [vm_compute; reflexivity|].
  apply (exhaustive_returns_tested_selection Binary64 tenths (@of_int Binary64 2)).
  vm_compute. reflexivity.
Defined.

(** ** sum_armor_vector *)

(** X5: on armors of positive cost [sum_armor_vector] returns the sum of the
    costs and the defenses added from the left, starting at 0, when the costs
    add up to at most [INT_MAX]; when they add up to more, [total_cost]
    overflows. *)
Theorem sum_armor_vector_total_or_overflow (A : Arith) (armors : ArmorVector A) :
  positive_costs armors ->
  (cost_sum armors <= INT_MAX ->
   sum_armor_vector armors = Returned (cost_sum armors, defense_sum armors))
  /\ (INT_MAX < cost_sum armors -> sum_armor_vector armors = Undefined).
Proof.
  intros Hp. split; intros H.
  - by apply sum_armor_vector_fits.
  - apply sum_loop_overflows; [done|unfold INT_MAX; lia|lia].
Qed.

Lemma sum_armor_vector_total_or_overflow_witness :
  (positive_costs scenario2 /\ cost_sum scenario2 <= INT_MAX
   /\ sum_armor_vector scenario2 = Returned (cost_sum scenario2, defense_sum scenario2))
  /\ (positive_costs costly /\ INT_MAX < cost_sum costly
      /\ sum_armor_vector costly = Undefined).
Proof.
  assert (positive_costs scenario2) as Hp2 by (repeat constructor; simpl; lia).
  assert (positive_costs costly) as Hpc by (repeat constructor; simpl; lia).
  split; (split; [done|]).
  - split; [vm_compute; discriminate|].
    apply (sum_armor_vector_total_or_overflow Binary64 scenario2 Hp2).
    vm_compute. discriminate.
  - split; [vm_compute; reflexivity|].
    apply (sum_armor_vector_total_or_overflow Binary64 costly Hpc).
    vm_compute. reflexivity.
Defined.



(** X7: in every arithmetic, binary64 among them, [exhaustive_max_defense]
    returns for at most 30 armors of positive cost whose costs add up to at
    most [INT_MAX]: it considers the candidates of the masks 0, 1, ... up to
    2^n - 1, each once and in this order, and returns the first one that
    passed the budget test with a defense greater than that of the ones
    before, or the empty vector. *)
Theorem exhaustive_enumerates_masks (A : Arith) (armors : ArmorVector A)
    (total_cost : dbl) :
  positive_costs armors -> cost_sum armors <= INT_MAX -> (length armors <= 30)%nat ->
  exhaustive_max_defense armors total_cost
  = Returned
      (fold_left (fun st m => consider total_cost st.1 st.2 (select armors m))
                 (seqZ 0 (2 ^ Z.of_nat (length armors))) ([], d0)).1.
Proof. apply exhaustive_masks. Qed.

Lemma exhaustive_enumerates_masks_witness :
  positive_costs tenths /\ cost_sum tenths <= INT_MAX /\ (length tenths <= 30)%nat
  /\ exhaustive_max_defense tenths (@of_int Binary64 3)
     = Returned
         (fold_left (fun st m => consider (@of_int Binary64 3) st.1 st.2
                                   (select tenths m))
                    (seqZ 0 (2 ^ Z.of_nat (length tenths))) ([], d0)).1.
Proof.
  assert (positive_costs tenths) as Hp by (repeat constructor; simpl; lia).
  assert (cost_sum tenths <= INT_MAX) as Hc by (vm_compute; discriminate).
  assert (length tenths <= 30)%nat as Hn by (simpl; lia).
  split; [done|]. split; [done|]. split; [done|].
  by apply (exhaustive_enumerates_masks Binary64).
Defined.

(** ** Lines and fields *)

Lemma getline_shorter delim c stream :
  (String.length (getline delim (String c stream)).2 <= String.length stream)%nat.
Proof.
  revert c. induction stream as [|c' stream IH]; intros c; cbn [getline].
  - destruct (Ascii.eqb c delim); simpl; lia.
  - destruct (Ascii.eqb c delim); [simpl; lia|].
    specialize (IH c'). cbn [getline] in IH.
    destruct (Ascii.eqb c' delim); [simpl in *; lia|].
    destruct (getline delim stream) as [str rest]. simpl in *. lia.
Qed.

Lemma getline_fields delim c stream :
  fields_of delim (String c stream)
  = (getline delim (String c stream)).1
    :: fields_of delim (getline delim (String c stream)).2.
Proof.
  revert c. induction stream as [|c' stream IH]; intros c.
  - cbn [getline fields_of]. by destruct (Ascii.eqb c delim).
  - specialize (IH c').
    change (fields_of delim (String c (String c' stream)))
      with (if Ascii.eqb c delim
            then EmptyString :: fields_of delim (String c' stream)
            else match fields_of delim (String c' stream) with
                 | [] => [String c EmptyString]
                 | field :: fields => String c field :: fields
                 end).
    change (getline delim (String c (String c' stream)))
      with (if Ascii.eqb c delim then (EmptyString, String c' stream)
            else let '(str, rest') := getline delim (String c' stream) in
                 (String c str, rest')).
    destruct (Ascii.eqb c delim); [done|].
    rewrite IH. by destruct (getline delim (String c' stream)).
Qed.

Lemma getline_loop_fields delim count stream v :
  (String.length stream <= count)%nat ->
  getline_loop delim count stream v = v ++ fields_of delim stream.
Proof.
  revert stream v.
  induction count as [|count IH]; intros stream v Hlen.
  - destruct stream; [|simpl in Hlen; lia]. simpl. by rewrite app_nil_r.
  - destruct stream as [|c stream]; [simpl; by rewrite app_nil_r|].
    cbn [getline_loop]. rewrite getline_fields.
    pose proof (getline_shorter delim c stream) as Hs.
    destruct (getline delim (String c stream)) as [str rest].
    cbn [fst snd] in *. rewrite IH by (simpl in Hlen; lia).
    by rewrite <- app_assoc.
Qed.

(** The loop over [std::getline] returns the fields of the text. *)
Lemma getlines_fields delim stream : getlines delim stream = fields_of delim stream.
Proof. unfold getlines. by rewrite getline_loop_fields. Qed.

Lemma fields_of_nil delim text : fields_of delim text = [] -> text = EmptyString.
Proof.
  destruct text as [|c rest]; [done|]. cbn [fields_of].
  destruct (Ascii.eqb c delim); [done|]. by destruct (fields_of delim rest).
Qed.

Lemma fields_of_field delim field rest :
  occurs delim field = false ->
  fields_of delim (field ++ String delim rest) = field :: fields_of delim rest.
Proof.
  induction field as [|c field IH]; cbn [occurs append fields_of]; intros H.
  - by rewrite Ascii.eqb_refl.
  - apply orb_false_iff in H as [Hc H]. rewrite Hc, IH by done. done.
Qed.

Lemma fields_of_last delim field :
  occurs delim field = false -> field <> EmptyString ->
  fields_of delim field = [field].
Proof.
  induction field as [|c field IH]; [done|]. cbn [occurs fields_of]. intros H _.
  apply orb_false_iff in H as [Hc H]. rewrite Hc.
  destruct field as [|c' field]; [done|]. by rewrite IH.
Qed.

Lemma join_cons delim c field fields :
  join delim (String c field :: fields) = String c (join delim (field :: fields)).
Proof. by destruct fields. Qed.

(** ** The text of the database *)

(** X8: joining fields with the delimiter and reading them back with the loop
    over [std::getline] gives the fields again, when no field holds the
    delimiter and the last field is not empty. *)
Theorem getlines_join (delim : ascii) (fields : list string) :
  Forall (fun field => occurs delim field = false) fields ->
  last fields <> Some EmptyString ->
  getlines delim (join delim fields) = fields.
Proof.
  rewrite getlines_fields.
  induction 1 as [|field fields Hf Hfs IH]; intros Hlast; [done|].
  destruct fields as [|field' fields].
  - simpl. apply fields_of_last; [done|]. intros ->. by apply Hlast.
  - change (join delim (field :: field' :: fields))
      with (field ++ String delim (join delim (field' :: fields)))%string.
    rewrite fields_of_field by done. f_equal. by apply IH.
Qed.

Lemma getlines_join_witness :
  Forall (fun field => occurs caret field = false)
         ["helmet"; ""; "3"]%string
  /\ last ["helmet"; ""; "3"]%string <> Some EmptyString
  /\ getlines caret (join caret ["helmet"; ""; "3"]%string)
     = ["helmet"; ""; "3"]%string.
Proof.
  assert (Forall (fun field => occurs caret field = false)
                 ["helmet"; ""; "3"]%string) as Hf
    by (repeat constructor).
  assert (last ["helmet"; ""; "3"]%string <> Some EmptyString) as Hl
    by (simpl; discriminate).
  split; [done|]. split; [done|]. by apply getlines_join.
Defined.

(** X9: the loop over [std::getline] loses nothing but a delimiter at the end
    of the text: no field it reads holds the delimiter, and the fields joined
    with the delimiter are the text, or the text without its last
    delimiter. *)
Theorem getlines_split (delim : ascii) (text : string) :
  Forall (fun field => occurs delim field = false) (getlines delim text)
  /\ (join delim (getlines delim text) = text
      \/ (join delim (getlines delim text) ++ String delim EmptyString)%string = text).
Proof.
  rewrite getlines_fields.
  induction text as [|c text [IHf IHj]]; [by split; [constructor|left]|].
  cbn [fields_of]. destruct (Ascii.eqb_spec c delim) as [->|Hne].
  - split; [by constructor|].
    destruct (fields_of delim text) as [|field fields] eqn:Hfields.
    + apply fields_of_nil in Hfields as ->. by right.
    + change (join delim (EmptyString :: field :: fields))
        with (String delim (join delim (field :: fields))).
      destruct IHj as [<-|<-]; [by left|by right].
  - destruct (fields_of delim text) as [|field fields] eqn:Hfields.
    + apply fields_of_nil in Hfields as ->.
      split; [|by left]. constructor; [|done]. simpl.
      rewrite orb_false_r. by apply Ascii.eqb_neq.
    + rewrite join_cons. split.
      * inversion IHf; subst. constructor; [|done]. simpl.
        apply orb_false_iff. split; [by apply Ascii.eqb_neq|done].
      * destruct IHj as [<-|<-]; [by left|by right].
Qed.

(** ** The constructor of ArmorItem *)

Lemma int_of_size_t_small (z : Z) : 0 <= z <= INT_MAX -> int_of_size_t z = z.
Proof.
  intros Hz. unfold int_of_size_t, INT_MAX in *.
  rewrite Z.mod_small by lia. by destruct (Z.leb_spec z (2 ^ 31 - 1)); [|lia].
Qed.


(** X11: with a description that is not empty and a cost from 1 to [INT_MAX]
    the constructor returns the armor of that description, cost and
    defense. *)
Theorem new_ArmorItem_accepts (A : Arith) (descr : string) (cost_gold : Z)
    (defense_points : dbl) :
  descr <> EmptyString -> 0 < cost_gold <= INT_MAX ->
  new_ArmorItem (A:=A) descr cost_gold defense_points
  = Returned {| description := descr; cost := cost_gold; defense := defense_points |}.
Proof.
  intros Hd Hc. unfold new_ArmorItem.
  destruct (String.eqb_spec descr EmptyString) as [->|_]; [done|].
  destruct (Z.ltb_spec 0 cost_gold); [|lia]. cbn [negb].
  by rewrite int_of_size_t_small by lia.
Qed.

Lemma new_ArmorItem_accepts_witness :
  "helmet"%string <> EmptyString /\ 0 < 2 <= INT_MAX
  /\ new_ArmorItem (A:=Binary64) "helmet" 2 3%float
     = Returned (@Build_ArmorItem Binary64 "helmet" 2 3%float).
Proof.
  assert ("helmet"%string <> EmptyString) as Hd by discriminate.
  assert (0 < 2 <= INT_MAX) as Hc by (unfold INT_MAX; lia).
  split; [done|]. split; [done|].
  by apply (new_ArmorItem_accepts Binary64).
Defined.

(** X12: the assertion [cost_gold > 0] is on the [size_t] parameter, not on
    the [int] member: a cost that is a positive multiple of 2^32 passes it
    and the armor costs 0. *)
Theorem new_ArmorItem_cost_wraps (A : Arith) (descr : string) (k : Z)
    (defense_points : dbl) :
  descr <> EmptyString -> 0 < k ->
  new_ArmorItem (A:=A) descr (k * 2 ^ 32) defense_points
  = Returned {| description := descr; cost := 0; defense := defense_points |}.
Proof.
  intros Hd Hk. unfold new_ArmorItem.
  destruct (String.eqb_spec descr EmptyString) as [->|_]; [done|].
  destruct (Z.ltb_spec 0 (k * 2 ^ 32)); [|lia]. cbn [negb].
  unfold int_of_size_t. by rewrite Z.mod_mul by lia.
Qed.

Lemma new_ArmorItem_cost_wraps_witness :
  "helmet"%string <> EmptyString /\ 0 < 1
  /\ new_ArmorItem (A:=Binary64) "helmet" (1 * 2 ^ 32) 3%float
     = Returned (@Build_ArmorItem Binary64 "helmet" 0 3%float).
Proof.
  assert ("helmet"%string <> EmptyString) as Hd by discriminate.
  split; [done|]. split; [lia|].
  apply (new_ArmorItem_cost_wraps Binary64); [done|lia].
Defined.

(** ** load_armor_database *)

Section LoaderFacts.

Context {A : Arith} (conv : Conversions A).

Lemma new_ArmorItem_returned descr cost_gold (defense_points : @dbl A) item :
  new_ArmorItem descr cost_gold defense_points = Returned item ->
  item = {| description := descr; cost := int_of_size_t cost_gold;
            defense := defense_points |}
  /\ descr <> EmptyString /\ 0 < cost_gold.
Proof.
  unfold new_ArmorItem.
  destruct (String.eqb_spec descr EmptyString) as [->|Hd]; [done|].
  destruct (Z.ltb_spec 0 cost_gold) as [Hc|Hc]; cbn [negb]; [|done].
  intros Heq. by inversion Heq.
Qed.

(** A line after the header either makes an armor, or ends the call. *)
Lemma load_loop_step line rest line_number result r :
  line_number <> O ->
  load_loop conv (line :: rest) line_number result = Returned r ->
  (exists item, loads_as conv line item
                /\ load_loop conv rest (S line_number) (result ++ [item]) = Returned r)
  \/ (r = InvalidFieldCount (S line_number) (length (getlines caret line)) line
      /\ length (getlines caret line) <> 3%nat).
Proof.
  intros Hn. cbn [load_loop].
  destruct (Nat.eqb_spec (S line_number) 1) as [?|_]; [lia|].
  destruct (getlines caret line) as [|f1 [|f2 [|f3 [|f4 fields]]]] eqn:Hfields;
    try (intros H; inversion H; subst; right; by split).
  destruct (extract conv f2) as [cost_gold|] eqn:Hc; [|done].
  destruct (extract conv f3) as [defense_points|] eqn:Hd; [|done].
  destruct (to_size_t conv cost_gold) as [size| | | |] eqn:Hs; try done.
  cbn [bind].
  destruct (new_ArmorItem f1 size defense_points) as [item| | | |] eqn:Hitem;
    try done.
  cbn [bind]. intros H. left. exists item. split; [|done].
  apply new_ArmorItem_returned in Hitem as (-> & Hne & Hpos).
  exists f2, f3, cost_gold, size. by split_and!.
Qed.

Lemma load_loop_loaded lines line_number result armors :
  line_number <> O ->
  load_loop conv lines line_number result = Returned (Loaded armors) ->
  exists items, armors = result ++ items /\ Forall2 (loads_as conv) lines items.
Proof.
  revert line_number result.
  induction lines as [|line rest IH]; intros line_number result Hn H.
  - inversion H; subst. exists []. by rewrite app_nil_r.
  - apply load_loop_step in H as [(item & Hitem & H)|[? _]]; [|done|done].
    apply IH in H as (items & -> & Hitems); [|done].
    exists (item :: items). split; [by rewrite <- app_assoc|by constructor].
Qed.

Lemma load_loop_invalid lines line_number result n got line :
  line_number <> O ->
  load_loop conv lines line_number result = Returned (InvalidFieldCount n got line) ->
  exists i,
    lines !! i = Some line /\ n = S (line_number + i)
    /\ got = length (getlines caret line) /\ got <> 3%nat
    /\ Forall (fun l => length (getlines caret l) = 3%nat) (take i lines).
Proof.
  revert line_number result.
  induction lines as [|l rest IH]; intros line_number result Hn H; [done|].
  apply load_loop_step in H as [(item & Hitem & H)|[H Hgot]]; [| |done].
  - apply IH in H as (i & Hi & -> & -> & Hgot & Hbefore); [|done].
    exists (S i). split_and!; [done|lia|done|done|].
    cbn [take]. constructor; [|done].
    destruct Hitem as (c & d & _ & _ & -> & _). done.
  - inversion H; subst. exists O. split_and!; [done|lia|done|done|constructor].
Qed.

End LoaderFacts.

Lemma getlines_header header body :
  occurs newline header = false ->
  getlines newline (header ++ String newline body)
  = header :: getlines newline body.
Proof. intros H. rewrite !getlines_fields. by apply fields_of_field. Qed.

(** X13: the first line is a header: it is never read as an armor.  A file
    of one line, or of none, loads as the empty vector, and what a file
    loads as does not depend on its first line. *)
Theorem load_armor_database_header (A : Arith) (conv : Conversions A)
    (header header' body : string) :
  occurs newline header = false -> occurs newline header' = false ->
  load_armor_database conv (Some header) = Returned (Loaded [])
  /\ load_armor_database conv (Some (header ++ String newline body)%string)
     = load_armor_database conv (Some (header' ++ String newline body)%string).
Proof.
  intros H H'. unfold load_armor_database. split.
  - rewrite getlines_fields. destruct header as [|c header]; [done|].
    by rewrite fields_of_last.
  - by rewrite !getlines_header.
Qed.

Lemma load_armor_database_header_witness :
  occurs newline "name^cost^defense" = false
  /\ occurs newline "" = false
  /\ load_armor_database IntConversions (Some "name^cost^defense"%string)
     = Returned (Loaded [])
  /\ load_armor_database IntConversions
       (Some ("name^cost^defense" ++ String newline "helmet^2^3")%string)
     = load_armor_database IntConversions
         (Some ("" ++ String newline "helmet^2^3")%string).
Proof.
  split; [reflexivity|]. split; [reflexivity|].
  by apply (load_armor_database_header IntArith IntConversions).
Defined.

(** X14: when [load_armor_database] returns a vector, every line after the
    first made one armor of it, in the order of the lines: the line has three
    fields, the armor has the first as its description, which is not empty,
    the value extracted from the third as its defense, and the value
    extracted from the second, converted to [size_t], where it is positive,
    and then to [int], as its cost.  No line is skipped. *)
Theorem load_armor_database_loaded (A : Arith) (conv : Conversions A)
    (text : string) (armors : ArmorVector A) :
  load_armor_database conv (Some text) = Returned (Loaded armors) ->
  Forall2 (loads_as conv) (drop 1 (getlines newline text)) armors.
Proof.
  unfold load_armor_database.
  destruct (getlines newline text) as [|header lines]; cbn [load_loop].
  - intros H. inversion H. constructor.
  - cbn [Nat.eqb drop]. intros H.
    apply load_loop_loaded in H as (items & -> & Hitems); [|done].
    by rewrite drop_0.
Qed.

(** X15: when [load_armor_database] reports an invalid field count, the line
    it reports is the line of that number in the file, after the first; the
    count is the number of fields of the line and is not 3; and every line
    between the first and that one has three fields. *)
Theorem load_armor_database_invalid (A : Arith) (conv : Conversions A)
    (text : string) (line_number got : nat) (line : string) :
  load_armor_database conv (Some text)
  = Returned (InvalidFieldCount line_number got line) ->
  (2 <= line_number)%nat
  /\ getlines newline text !! (line_number - 1)%nat = Some line
  /\ got = length (getlines caret line) /\ got <> 3%nat
  /\ Forall (fun l => length (getlines caret l) = 3%nat)
            (drop 1 (take (line_number - 1) (getlines newline text))).
Proof.
  unfold load_armor_database.
  destruct (getlines newline text) as [|header lines]; cbn [load_loop]; [done|].
  cbn [Nat.eqb]. intros H.
  apply load_loop_invalid in H as (i & Hi & -> & -> & Hgot & Hbefore); [|done].
  replace (S (1 + i) - 1)%nat with (S i) by lia.
  split_and!; [lia|done|done|done|]. cbn [take drop]. by rewrite drop_0.
Qed.

Lemma load_armor_database_loaded_witness :
  load_armor_database IntConversions (Some armor_csv)
  = Returned (Loaded [@Build_ArmorItem IntArith "helmet" 2 3;
                      @Build_ArmorItem IntArith "shield" 3 4;
                      @Build_ArmorItem IntArith "boots" 4 5])
  /\ Forall2 (loads_as IntConversions) (drop 1 (getlines newline armor_csv))
       [@Build_ArmorItem IntArith "helmet" 2 3;
        @Build_ArmorItem IntArith "shield" 3 4;
        @Build_ArmorItem IntArith "boots" 4 5].
Proof.
  split; [vm_compute; reflexivity|].
  apply (load_armor_database_loaded IntArith IntConversions armor_csv).
  vm_compute. reflexivity.
Defined.

Lemma load_armor_database_invalid_witness :
  load_armor_database IntConversions (Some broken_csv)
  = Returned (InvalidFieldCount 3 2 "shield^3")
  /\ (2 <= 3)%nat
  /\ getlines newline broken_csv !! (3 - 1)%nat = Some "shield^3"%string
  /\ 2%nat = length (getlines caret "shield^3") /\ 2%nat <> 3%nat
  /\ Forall (fun l => length (getlines caret l) = 3%nat)
            (drop 1 (take (3 - 1) (getlines newline broken_csv))).
Proof.
  split; [vm_compute; reflexivity|].
  apply (load_armor_database_invalid IntArith IntConversions broken_csv).
  vm_compute. reflexivity.
Defined.

(** ** filter_armor_vector *)

Section FilterFacts.

Context {A : Arith}.

Implicit Types (source filterVec : ArmorVector A).

Lemma filter_sublist (P : ArmorItem A -> bool) source :
  sublist (List.filter P source) source.
Proof.
  induction source as [|a l IH]; simpl; [done|].
  destruct (P a); [by apply sublist_skip|by apply sublist_cons].
Qed.

Lemma filter_all (P : ArmorItem A -> bool) source :
  Forall (fun a => P a = true) source -> List.filter P source = source.
Proof. induction 1 as [|a l Ha _ IH]; simpl; [done|]. by rewrite Ha, IH. Qed.

Lemma filter_Forall (P : ArmorItem A -> bool) source :
  Forall (fun a => P a = true) (List.filter P source).
Proof.
  induction source as [|a l IH]; simpl; [done|].
  destruct (P a) eqn:Ha; [by constructor|done].
Qed.

(** The loop pushes the armors within the bounds until [maxSize] reaches
    [total_size]; [maxSize++] never overflows. *)
Lemma filter_loop_take source min_defense max_defense total_size maxSize filterVec :
  0 <= maxSize -> total_size <= INT_MAX ->
  filter_loop source min_defense max_defense total_size maxSize filterVec
  = Returned (filterVec
              ++ take (Z.to_nat (total_size - maxSize))
                      (List.filter (in_range min_defense max_defense) source)).
Proof.
  intros Hm Ht. revert maxSize filterVec Hm.
  induction source as [|a l IH]; intros maxSize filterVec Hm; cbn [filter_loop].
  - simpl. rewrite take_nil. by rewrite app_nil_r.
  - cbn [List.filter].
    change (dleb min_defense (defense a) && dleb (defense a) max_defense)
      with (in_range min_defense max_defense a).
    destruct (in_range min_defense max_defense a); cbn [andb]; [|by apply IH].
    destruct (Z.ltb_spec maxSize total_size) as [Hlt|Hge].
    + unfold int_add, in_int, INT_MIN, INT_MAX in *.
      replace ((- 2 ^ 31 <=? maxSize + 1) && (maxSize + 1 <=? 2 ^ 31 - 1)) with true
        by (symmetry; apply andb_true_iff; split; apply Z.leb_le; lia).
      cbn [bind]. rewrite IH by lia.
      replace (Z.to_nat (total_size - maxSize))
        with (S (Z.to_nat (total_size - (maxSize + 1)))) by lia.
      cbn [take]. by rewrite <- app_assoc.
    + rewrite IH by lia.
      by replace (Z.to_nat (total_size - maxSize)) with O by lia.
Qed.

Lemma filter_armor_vector_take source min_defense max_defense total_size :
  total_size <= INT_MAX ->
  filter_armor_vector source min_defense max_defense total_size
  = Returned (take (Z.to_nat total_size)
                   (List.filter (in_range min_defense max_defense) source)).
Proof.
  intros Ht. unfold filter_armor_vector.
  rewrite filter_loop_take by (done || lia). by rewrite Z.sub_0_r.
Qed.

End FilterFacts.

(** X16: [filter_armor_vector] returns, for every source and every
    [total_size] an [int] holds: the counter [maxSize] never overflows.  The
    vector it returns holds armors of the source in the order of the source,
    each of a defense between the two bounds, and at most [total_size] of
    them: none when [total_size] is zero or less. *)
Theorem filter_armor_vector_sound (A : Arith) (source : ArmorVector A)
    (min_defense max_defense : dbl) (total_size : Z) :
  total_size <= INT_MAX ->
  exists filterVec,
    filter_armor_vector source min_defense max_defense total_size = Returned filterVec
    /\ sublist filterVec source
    /\ Forall (fun armor => dleb min_defense (defense armor) = true
                            /\ dleb (defense armor) max_defense = true) filterVec
    /\ (length filterVec <= Z.to_nat total_size)%nat.
Proof.
  intros Ht. eexists. split; [by apply filter_armor_vector_take|].
  split_and!.
  - etrans; [apply sublist_take|apply filter_sublist].
  - apply Forall_take.
    eapply Forall_impl; [apply filter_Forall|].
    intros a Ha. by apply andb_true_iff in Ha.
  - rewrite length_take. lia.
Qed.

Lemma filter_armor_vector_sound_witness :
  2 <= INT_MAX
  /\ exists filterVec,
       filter_armor_vector scenario1 4 6 2 = Returned filterVec
       /\ sublist filterVec scenario1
       /\ Forall (fun armor => @dleb IntArith 4 (defense armor) = true
                               /\ @dleb IntArith (defense armor) 6 = true) filterVec
       /\ (length filterVec <= Z.to_nat 2)%nat.
Proof.
  assert (2 <= INT_MAX) as Ht by (unfold INT_MAX; lia).
  split; [done|]. by apply (filter_armor_vector_sound IntArith scenario1 4 6 2).
Defined.

(** X17: the vector [filter_armor_vector] returns is the first [total_size]
    armors of the source whose defense is between the two bounds; when it
    holds fewer than [total_size] armors, it holds every such armor of the
    source. *)
Theorem filter_armor_vector_first (A : Arith) (source : ArmorVector A)
    (min_defense max_defense : dbl) (total_size : Z) :
  total_size <= INT_MAX ->
  filter_armor_vector source min_defense max_defense total_size
  = Returned (take (Z.to_nat total_size)
                   (List.filter (in_range min_defense max_defense) source))
  /\ ((length (List.filter (in_range min_defense max_defense) source)
       <= Z.to_nat total_size)%nat ->
      filter_armor_vector source min_defense max_defense total_size
      = Returned (List.filter (in_range min_defense max_defense) source)).
Proof.
  intros Ht. split; [by apply filter_armor_vector_take|].
  intros Hlen. rewrite filter_armor_vector_take by done. by rewrite take_ge.
Qed.

Lemma filter_armor_vector_first_witness :
  2 <= INT_MAX
  /\ filter_armor_vector scenario1 4 6 2
     = Returned (take (Z.to_nat 2) (List.filter (@in_range IntArith 4%Z 6%Z) scenario1))
  /\ ((length (List.filter (@in_range IntArith 4%Z 6%Z) scenario1) <= Z.to_nat 2)%nat ->
      filter_armor_vector scenario1 4 6 2
      = Returned (List.filter (@in_range IntArith 4%Z 6%Z) scenario1)).
Proof.
  assert (2 <= INT_MAX) as Ht by (unfold INT_MAX; lia).
  split; [done|]. by apply (filter_armor_vector_first IntArith scenario1 4 6 2).
Defined.

(** X18: filtering what [filter_armor_vector] returned, with the same bounds
    and the same size, returns it again. *)
Theorem filter_armor_vector_idempotent (A : Arith) (source filterVec : ArmorVector A)
    (min_defense max_defense : dbl) (total_size : Z) :
  total_size <= INT_MAX ->
  filter_armor_vector source min_defense max_defense total_size = Returned filterVec ->
  filter_armor_vector filterVec min_defense max_defense total_size = Returned filterVec.
Proof.
  intros Ht. rewrite !filter_armor_vector_take by done.
  intros H. inversion H as [Hv]. clear H. f_equal.
  rewrite filter_all by apply Forall_take, filter_Forall.
  rewrite take_take. f_equal. lia.
Qed.

Lemma filter_armor_vector_idempotent_witness :
  2 <= INT_MAX
  /\ filter_armor_vector scenario1 4 6 2 = Returned (take 2 (drop 1 scenario1))
  /\ filter_armor_vector (take 2 (drop 1 scenario1)) 4 6 2
     = Returned (take 2 (drop 1 scenario1)).
Proof.
  assert (2 <= INT_MAX) as Ht by (unfold INT_MAX; lia).
  split; [done|]. split; [vm_compute; reflexivity|].
  apply (filter_armor_vector_idempotent IntArith scenario1); [done|].
  vm_compute. reflexivity.
Defined.

Lemma leb_not_nan (x y : float) : PrimFloat.leb x y = true -> PrimFloat.is_nan y = false.
Proof.
  unfold PrimFloat.is_nan. rewrite FloatAxioms.leb_spec, FloatAxioms.eqb_spec.
  destruct (deqb_refl Binary64 Binary64NaN y) as [H|H]; simpl in H.
  - rewrite FloatAxioms.eqb_spec in H. by rewrite H.
  - rewrite H. unfold SFleb. by destruct (Prim2SF x).
Qed.

(** X19: in binary64 no armor [filter_armor_vector] returns has a NaN as its
    defense, whatever the bounds are: a comparison with a NaN is false. *)
Theorem filter_armor_vector_drops_nan (source filterVec : ArmorVector Binary64)
    (min_defense max_defense : float) (total_size : Z) :
  filter_armor_vector source min_defense max_defense total_size = Returned filterVec ->
  Forall (fun armor : ArmorItem Binary64 =>
            PrimFloat.is_nan (defense armor) = false) filterVec.
Proof.
  unfold filter_armor_vector.
  assert (Forall (fun armor : ArmorItem Binary64 =>
                    PrimFloat.is_nan (defense armor) = false) []) as Hacc
    by constructor.
  revert Hacc. generalize (@nil (ArmorItem Binary64)) as acc. generalize 0 as maxSize.
  induction source as [|a l IH]; intros maxSize acc Hacc; cbn [filter_loop].
  - intros H. by inversion H; subst.
  - destruct (@dleb Binary64 min_defense (defense a)) eqn:Hlo; cbn [andb];
      [|by apply IH].
    destruct (@dleb Binary64 (defense a) max_defense && (maxSize <? total_size));
      [|by apply IH].
    destruct (int_add maxSize 1) as [m| | | |]; try done. cbn [bind].
    apply IH. apply Forall_app. split; [done|].
    constructor; [|done]. apply (leb_not_nan min_defense). exact Hlo.
Qed.

Lemma filter_armor_vector_drops_nan_witness :
  filter_armor_vector (nan_armor :: scenario2) 0%float infinity 5
  = Returned scenario2
  /\ Forall (fun armor : ArmorItem Binary64 =>
               PrimFloat.is_nan (defense armor) = false) scenario2.
Proof.
  split; [vm_compute; reflexivity|].
  apply (filter_armor_vector_drops_nan (nan_armor :: scenario2) scenario2
           0%float infinity 5).
  vm_compute. reflexivity.
Defined.

(** X20: what [filter_armor_vector] returns for a [total_size] below 64 never
    fails the assertion of [exhaustive_max_defense]; for a [total_size] of 64
    or more and a source with 64 armors between the bounds, it always
    does. *)
Theorem filter_then_exhaustive (A : Arith) (source filterVec : ArmorVector A)
    (min_defense max_defense total_cost : dbl) (total_size : Z) :
  total_size <= INT_MAX ->
  filter_armor_vector source min_defense max_defense total_size = Returned filterVec ->
  (exhaustive_max_defense filterVec total_cost = AssertionFailed
   <-> 64 <= total_size
       /\ (64 <= length (List.filter (in_range min_defense max_defense) source))%nat).
Proof.
  intros Ht. rewrite filter_armor_vector_take by done.
  intros H. inversion H as [Hv]. clear H.
  assert (length filterVec
          = Nat.min (Z.to_nat total_size)
              (length (List.filter (in_range min_defense max_defense) source)))
    as Hlen by (by rewrite <- Hv, length_take).
  rewrite Hv. unfold exhaustive_max_defense.
  destruct (Z.ltb_spec (Z.of_nat (length filterVec)) 64) as [Hlt|Hge]; cbn [negb].
  - split; [|lia]. intros Hs. by apply search_asserts_nothing in Hs.
  - split; [lia|done].
Qed.

Lemma filter_then_exhaustive_witness :
  70 <= INT_MAX
  /\ filter_armor_vector (ones 70) 1%float 500%float 70 = Returned (ones 70)
  /\ (exhaustive_max_defense (ones 70) 500%float = AssertionFailed
      <-> 64 <= 70
          /\ (64 <= length (List.filter (@in_range Binary64 1%float 500%float)
                                        (ones 70)))%nat).
Proof.
  assert (70 <= INT_MAX) as Ht by (unfold INT_MAX; lia).
  split; [done|]. split; [vm_compute; reflexivity|].
  apply (filter_then_exhaustive Binary64 (ones 70) (ones 70) 1%float 500%float
           500%float 70 Ht).
  vm_compute. reflexivity.
Defined.

(** ** print_armor_vector and print_2d_cache *)

Section PrintingFacts.

Context {A : Arith} (show_int : Z -> string) (show_double : @dbl A -> string).

Lemma length_append (s1 s2 : string) :
  String.length (s1 ++ s2) = (String.length s1 + String.length s2)%nat.
Proof. induction s1 as [|c s1 IH]; simpl; [done|]. by rewrite IH. Qed.

Lemma length_spaces (count : nat) : String.length (spaces count) = count.
Proof. induction count as [|count IH]; simpl; [done|]. by rewrite IH. Qed.

Lemma length_setw (w : nat) (text : string) :
  String.length (setw w text) = Nat.max w (String.length text).
Proof. unfold setw. rewrite length_append, length_spaces. lia. Qed.

Lemma length_cache_line_from (row : list (@dbl A)) (line : string) :
  (String.length line + 5 * length row
   <= String.length
        (fold_left (fun line value => (line ++ setw 5 (show_double value))%string)
                   row line))%nat.
Proof.
  revert line. induction row as [|value row IH]; intros line; simpl; [lia|].
  etrans; [|apply IH]. rewrite length_append, length_setw. lia.
Qed.

End PrintingFacts.

(** X21: [print_2d_cache] is undefined on the caches of exactly one row, and
    on no other: it reads the size of [cache[1]], which such a cache does
    not have.  On every other cache it returns. *)
Theorem print_2d_cache_undefined (A : Arith) (show_double : @dbl A -> string)
    (cache : list (list (@dbl A))) :
  (print_2d_cache show_double cache = Undefined <-> length cache = 1%nat)
  /\ (length cache = 1%nat
      \/ exists lines, print_2d_cache show_double cache = Returned lines).
Proof.
  unfold print_2d_cache.
  destruct cache as [|row0 [|row1 cache]].
  - split; [split; done|right; by eexists].
  - split; [split; done|by left].
  - cbn [length Nat.eqb]. destruct (250 <? S (S (length cache)))%nat.
    + split; [split; done|right; by eexists].
    + cbn [index lookup list_lookup bind].
      destruct (250 <? length row1)%nat;
        (split; [split; done|right; by eexists]).
Qed.

(** X22: on a cache of two rows or more [print_2d_cache] returns.  It writes
    "[too large]" and no value when the cache has more than 250 rows or its
    second row more than 250 values, whatever the lengths of the other rows
    are; otherwise it writes one line for each row, of at least five
    characters for each value of the row. *)
Theorem print_2d_cache_lines (A : Arith) (show_double : @dbl A -> string)
    (cache : list (list (@dbl A))) (row1 : list (@dbl A)) :
  cache !! 1%nat = Some row1 ->
  print_2d_cache show_double cache
  = Returned (if (250 <? length cache)%nat || (250 <? length row1)%nat
              then ["*** 2D Cache ***"; "[too large]"]%string
              else "*** 2D Cache ***"%string :: map (cache_line show_double) cache)
  /\ Forall2 (fun row line => (5 * length row <= String.length line)%nat)
             cache (map (cache_line show_double) cache).
Proof.
  intros Hrow. split.
  - unfold print_2d_cache.
    destruct cache as [|row0 cache]; [done|]. cbn [length Nat.eqb].
    destruct (250 <? S (length cache))%nat; [done|].
    unfold index. rewrite Hrow. cbn [bind orb].
    by destruct (250 <? length row1)%nat.
  - clear Hrow. induction cache as [|row cache IH]; constructor; [|done].
    apply (length_cache_line_from show_double row EmptyString).
Qed.

Lemma print_2d_cache_lines_witness :
  ([[0; 0]; [0; 3]] : list (list (@dbl IntArith))) !! 1%nat = Some [0; 3]
  /\ print_2d_cache (A:=IntArith) (fun _ => "0"%string) [[0; 0]; [0; 3]]
     = Returned (if (250 <? length [[0; 0]; [0; 3]])%nat
                    || (250 <? length [0; 3])%nat
                 then ["*** 2D Cache ***"; "[too large]"]%string
                 else "*** 2D Cache ***"%string
                      :: map (cache_line (A:=IntArith) (fun _ => "0"%string))
                             [[0; 0]; [0; 3]])
  /\ Forall2 (fun row line => (5 * length row <= String.length line)%nat)
             ([[0; 0]; [0; 3]] : list (list (@dbl IntArith)))
             (map (cache_line (A:=IntArith) (fun _ => "0"%string)) [[0; 0]; [0; 3]]).
Proof.
  split; [reflexivity|].
  apply (print_2d_cache_lines IntArith (fun _ => "0"%string) [[0; 0]; [0; 3]] [0; 3]).
  reflexivity.
Defined.

(** X23: [print_armor_vector] on armors of positive cost: for an empty vector
    it writes the title and "[empty armor list]"; otherwise, when the costs
    add up to at most [INT_MAX], the title, one line for each armor and the
    two totals, and when they add up to more the sum overflows. *)
Theorem print_armor_vector_lines (A : Arith) (show_int : Z -> string)
    (show_double : @dbl A -> string) (armors : ArmorVector A) :
  positive_costs armors ->
  print_armor_vector show_int show_double [] 
  = Returned ["*** Armor Vector ***"; "[empty armor list]"]%string
  /\ (armors <> [] -> cost_sum armors <= INT_MAX ->
      print_armor_vector show_int show_double armors
      = Returned ("*** Armor Vector ***"%string
                  :: map (armor_line show_int show_double) armors
                  ++ [("> Grand total cost: " ++ show_int (cost_sum armors)
                       ++ " gold")%string;
                      ("> Grand total defense: "
                       ++ show_double (defense_sum armors))%string]))
  /\ (INT_MAX < cost_sum armors ->
      print_armor_vector show_int show_double armors = Undefined).
Proof.
  intros Hp. split; [done|]. unfold print_armor_vector. split.
  - intros Hne Hfit. destruct armors as [|a armors]; [done|]. cbn [length Nat.eqb].
    by rewrite sum_armor_vector_fits.
  - intros Hover. destruct armors as [|a armors]; [simpl in Hover; unfold INT_MAX in *; lia|].
    cbn [length Nat.eqb]. unfold sum_armor_vector.
    rewrite sum_loop_overflows; [done|done|unfold INT_MAX; lia|lia].
Qed.

Lemma print_armor_vector_lines_witness :
  (positive_costs scenario2 /\ scenario2 <> [] /\ cost_sum scenario2 <= INT_MAX
   /\ print_armor_vector (fun _ => "0"%string) (fun _ => "0"%string) scenario2
      = Returned ("*** Armor Vector ***"%string
                  :: map (armor_line (fun _ => "0"%string) (fun _ => "0"%string))
                         scenario2
                  ++ [("> Grand total cost: " ++ "0" ++ " gold")%string;
                      ("> Grand total defense: " ++ "0")%string]))
  /\ (positive_costs costly /\ INT_MAX < cost_sum costly
      /\ print_armor_vector (fun _ => "0"%string) (fun _ => "0"%string) costly
         = Undefined).
Proof.
  assert (positive_costs scenario2) as Hp2 by (repeat constructor; simpl; lia).
  assert (positive_costs costly) as Hpc by (repeat constructor; simpl; lia).
  split; (split; [done|]).
  - split; [discriminate|]. split; [vm_compute; discriminate|].
    destruct (print_armor_vector_lines Binary64 (fun _ => "0"%string)
                (fun _ => "0"%string) scenario2 Hp2) as (_ & H & _).
    apply H; [discriminate|vm_compute; discriminate].
  - split; [vm_compute; reflexivity|].
    destruct (print_armor_vector_lines Binary64 (fun _ => "0"%string)
                (fun _ => "0"%string) costly Hpc) as (_ & _ & H).
    apply H. vm_compute. reflexivity.
Defined.

(** ** main *)

Lemma Forall_sublist {X : Type} (P : X -> Prop) (l k : list X) :
  sublist l k -> Forall P k -> Forall P l.
Proof.
  induction 1 as [|x l k _ IH|x l k _ IH]; intros Hk; [done| |].
  - inversion Hk; subst. constructor; [done|by apply IH].
  - inversion Hk; subst. by apply IH.
Qed.



(** X25: what [main] has solved when it stops the timer: the database was
    loaded, and the armors [dynamic_max_defense] returned are armors of the
    database, in the reverse of its order, at most 70, each of a defense from
    1 to 500; when every armor of the database has a positive cost, they cost
    500 gold at most. *)
Theorem main_run_solution (A : Arith) (L : NaNLaws A) (conv : Conversions A)
    (file : option string) (sol : ArmorVector A) :
  main_run conv file = Returned sol ->
  exists armors,
    load_armor_database conv file = Returned (Loaded armors)
    /\ sublist (rev sol) armors
    /\ Forall (fun armor => dleb (of_int 1) (defense armor) = true
                            /\ dleb (defense armor) (of_int 500) = true) sol
    /\ (length sol <= 70)%nat
    /\ (positive_costs armors -> cost_sum sol <= 500).
Proof.
  unfold main_run.
  destruct (load_armor_database conv file) as [[armors| |]| | | |]; try done.
  cbn [bind database]. rewrite filter_armor_vector_take by (unfold INT_MAX; lia).
  cbn [bind]. intros Hsol. exists armors. split; [done|].
  set (filtered_vec := take (Z.to_nat 70)
                         (List.filter (in_range (of_int 1) (of_int 500)) armors)) in *.
  assert (sublist filtered_vec armors) as Hsub
    by (etrans; [apply sublist_take|apply filter_sublist]).
  pose proof (dynamic_sublist _ _ _ Hsol) as Hrev.
  assert (Forall (fun armor => in_range (of_int 1) (of_int 500) armor = true) (rev sol))
    as Hall.
  { eapply Forall_sublist; [done|]. apply Forall_take, filter_Forall. }
  split_and!.
  - by etrans.
  - apply Forall_rev in Hall. rewrite rev_involutive in Hall.
    eapply Forall_impl; [done|]. intros a Ha. by apply andb_true_iff in Ha.
  - apply sublist_length in Hrev. rewrite length_rev in Hrev.
    etrans; [done|]. unfold filtered_vec. rewrite length_take. lia.
  - intros Hp. apply (dynamic_cost_bound L filtered_vec); [|done].
    by apply (positive_costs_sublist _ armors).
Qed.

Lemma main_run_solution_witness :
  main_run Binary64Conversions (Some armor_csv)
  = Returned [@Build_ArmorItem Binary64 "boots" 4 5%float;
              @Build_ArmorItem Binary64 "shield" 3 4%float;
              @Build_ArmorItem Binary64 "helmet" 2 3%float]
  /\ exists armors,
       load_armor_database Binary64Conversions (Some armor_csv)
       = Returned (Loaded armors)
       /\ sublist (rev [@Build_ArmorItem Binary64 "boots" 4 5%float;
                        @Build_ArmorItem Binary64 "shield" 3 4%float;
                        @Build_ArmorItem Binary64 "helmet" 2 3%float]) armors
       /\ Forall (fun armor : ArmorItem Binary64 =>
                    @dleb Binary64 (of_int 1) (defense armor) = true
                    /\ @dleb Binary64 (defense armor) (of_int 500) = true)
                 [@Build_ArmorItem Binary64 "boots" 4 5%float;
                  @Build_ArmorItem Binary64 "shield" 3 4%float;
                  @Build_ArmorItem Binary64 "helmet" 2 3%float]
       /\ (length [@Build_ArmorItem Binary64 "boots" 4 5%float;
                   @Build_ArmorItem Binary64 "shield" 3 4%float;
                   @Build_ArmorItem Binary64 "helmet" 2 3%float] <= 70)%nat
       /\ (positive_costs armors ->
           cost_sum [@Build_ArmorItem Binary64 "boots" 4 5%float;
                     @Build_ArmorItem Binary64 "shield" 3 4%float;
                     @Build_ArmorItem Binary64 "helmet" 2 3%float] <= 500).
Proof.
  split; [vm_compute; reflexivity|].
  apply (main_run_solution Binary64 Binary64NaN Binary64Conversions (Some armor_csv)).
  vm_compute. reflexivity.
Defined.
